(** * The property, quantity and type flatteners of psets.py

    A shallow embedding of the functions of [psets.py], which flatten the
    property sets, quantity sets and type definitions attached to an IFC
    element into Python dictionaries, together with proofs of the properties
    its specification states about them.

    The IfcOpenShell entities the module reads are modelled as inductive
    types with one constructor per entity class; [is_a] compares class
    names, and reading an attribute the entity's class does not have raises
    [AttributeError], as attribute access on an entity instance does.
    Dictionaries are finite maps; [d.update(m)] is the union in which [m]
    wins. *)

From stdpp Require Import gmap strings list fin_maps.
From Stdlib Require Import ZArith QArith.

Set Warnings "-register-all".
Local Open Scope string_scope.
Local Open Scope list_scope.

(** ** Python values and exceptions *)

(** The scalars an attribute can hold.  Floating-point numbers are only
    carried from the model into the dictionary, never computed with; they
    are represented by the rational they denote. *)
Inductive pyval : Type :=
| PNone
| PBool (b : bool)
| PInt (n : Z)
| PFloat (q : Q)
| PStr (s : string).

Inductive exn : Type :=
| AttributeError (attr : string)
| TypeError.

Inductive result (A : Type) : Type :=
| Ok (a : A)
| Raise (e : exn).
Arguments Ok {A} a.
Arguments Raise {A} e.

#[global] Instance result_ret : MRet result := fun _ a => Ok a.
#[global] Instance result_bind : MBind result := fun _ _ f c =>
  match c with
  | Ok a => f a
  | Raise e => Raise e
  end.

(** A [for] loop whose body updates the loop state and may raise. *)
Fixpoint for_each {A S : Type} (body : S -> A -> result S) (s : S)
    (xs : list A) : result S :=
  match xs with
  | [] => Ok s
  | x :: xs' => s' ← body s x; for_each body s' xs'
  end.

(** ["TypeDefinition_" + name]: adding [None] to a [str] is a [TypeError]. *)
Definition str_add (prefix : string) (name : option string) : result string :=
  match name with
  | Some n => Ok (prefix +:+ n)
  | None => Raise TypeError
  end.

(** ** Entities *)

(** The entity a [NominalValue] refers to (an IfcLabel, IfcReal, ...). *)
Record IfcValue : Type := { wrappedValue : pyval }.

Inductive IfcProperty : Type :=
| IfcPropertySingleValue (Name : option string) (NominalValue : option IfcValue)
| IfcComplexProperty (Name : option string) (HasProperties : list IfcProperty)
| IfcPropertyOther (class : string) (Name : option string).

Inductive IfcPhysicalQuantity : Type :=
| IfcQuantityArea (Name : option string) (AreaValue : pyval)
| IfcQuantityLength (Name : option string) (LengthValue : pyval)
| IfcQuantityVolume (Name : option string) (VolumeValue : pyval)
| IfcQuantityCount (Name : option string) (CountValue : pyval)
| IfcQuantityWeight (Name : option string) (WeightValue : pyval)
| IfcPhysicalQuantityOther (class : string) (Name : option string).

Inductive IfcPropertySetDefinition : Type :=
| IfcPropertySet (Name : option string) (HasProperties : list IfcProperty)
| IfcElementQuantity (Name : option string)
    (Quantities : list IfcPhysicalQuantity)
| IfcPropertySetDefinitionOther (class : string) (Name : option string).

(** An entry of [HasPropertySets].  The schema asks for property set
    definitions, which all have a [Name]; the file need not obey it, and a
    malformed reference leads to an instance of another class, without
    that attribute. *)
Inductive entity_instance : Type :=
| SetDefinition (d : IfcPropertySetDefinition)
| OtherInstance (class : string).

(** [GlobalId] is mandatory in the schema, but a file may leave it out, and
    the attribute is then [None]. *)
Record IfcTypeObject : Type := {
  GlobalId : option string;
  type_Name : option string;
  HasPropertySets : option (list entity_instance)
}.

Inductive IfcRelDefines : Type :=
| IfcRelDefinesByProperties
    (RelatingPropertyDefinition : IfcPropertySetDefinition)
| IfcRelDefinesByType (RelatingType : IfcTypeObject).

Record IfcObject : Type := { IsDefinedBy : list IfcRelDefines }.

(** *** Class names and [is_a] *)

Module Property.
Definition class_name (y : IfcProperty) : string :=
  match y with
  | IfcPropertySingleValue _ _ => "IfcPropertySingleValue"
  | IfcComplexProperty _ _ => "IfcComplexProperty"
  | IfcPropertyOther c _ => c
  end.

Definition is_a (y : IfcProperty) (c : string) : bool :=
  String.eqb (class_name y) c.

Definition Name (y : IfcProperty) : option string :=
  match y with
  | IfcPropertySingleValue n _ => n
  | IfcComplexProperty n _ => n
  | IfcPropertyOther _ n => n
  end.

Definition NominalValue (y : IfcProperty) : result (option IfcValue) :=
  match y with
  | IfcPropertySingleValue _ v => Ok v
  | _ => Raise (AttributeError "NominalValue")
  end.

Definition HasProperties (y : IfcProperty) : result (list IfcProperty) :=
  match y with
  | IfcComplexProperty _ zs => Ok zs
  | _ => Raise (AttributeError "HasProperties")
  end.
End Property.

Module Quantity.
Definition class_name (y : IfcPhysicalQuantity) : string :=
  match y with
  | IfcQuantityArea _ _ => "IfcQuantityArea"
  | IfcQuantityLength _ _ => "IfcQuantityLength"
  | IfcQuantityVolume _ _ => "IfcQuantityVolume"
  | IfcQuantityCount _ _ => "IfcQuantityCount"
  | IfcQuantityWeight _ _ => "IfcQuantityWeight"
  | IfcPhysicalQuantityOther c _ => c
  end.

Definition is_a (y : IfcPhysicalQuantity) (c : string) : bool :=
  String.eqb (class_name y) c.

Definition Name (y : IfcPhysicalQuantity) : option string :=
  match y with
  | IfcQuantityArea n _ | IfcQuantityLength n _ | IfcQuantityVolume n _
  | IfcQuantityCount n _ | IfcQuantityWeight n _
  | IfcPhysicalQuantityOther _ n => n
  end.

Definition AreaValue (y : IfcPhysicalQuantity) : result pyval :=
  match y with
  | IfcQuantityArea _ v => Ok v
  | _ => Raise (AttributeError "AreaValue")
  end.

Definition LengthValue (y : IfcPhysicalQuantity) : result pyval :=
  match y with
  | IfcQuantityLength _ v => Ok v
  | _ => Raise (AttributeError "LengthValue")
  end.

Definition VolumeValue (y : IfcPhysicalQuantity) : result pyval :=
  match y with
  | IfcQuantityVolume _ v => Ok v
  | _ => Raise (AttributeError "VolumeValue")
  end.

Definition CountValue (y : IfcPhysicalQuantity) : result pyval :=
  match y with
  | IfcQuantityCount _ v => Ok v
  | _ => Raise (AttributeError "CountValue")
  end.

Definition WeightValue (y : IfcPhysicalQuantity) : result pyval :=
  match y with
  | IfcQuantityWeight _ v => Ok v
  | _ => Raise (AttributeError "WeightValue")
  end.
End Quantity.

Module PsetDef.
Definition class_name (x : IfcPropertySetDefinition) : string :=
  match x with
  | IfcPropertySet _ _ => "IfcPropertySet"
  | IfcElementQuantity _ _ => "IfcElementQuantity"
  | IfcPropertySetDefinitionOther c _ => c
  end.

Definition is_a (x : IfcPropertySetDefinition) (c : string) : bool :=
  String.eqb (class_name x) c.

Definition Name (x : IfcPropertySetDefinition) : option string :=
  match x with
  | IfcPropertySet n _ | IfcElementQuantity n _
  | IfcPropertySetDefinitionOther _ n => n
  end.

Definition HasProperties (x : IfcPropertySetDefinition)
    : result (list IfcProperty) :=
  match x with
  | IfcPropertySet _ ys => Ok ys
  | _ => Raise (AttributeError "HasProperties")
  end.

Definition Quantities (x : IfcPropertySetDefinition)
    : result (list IfcPhysicalQuantity) :=
  match x with
  | IfcElementQuantity _ ys => Ok ys
  | _ => Raise (AttributeError "Quantities")
  end.
End PsetDef.

Module Entity.
Definition Name (y : entity_instance) : result (option string) :=
  match y with
  | SetDefinition d => Ok (PsetDef.Name d)
  | OtherInstance _ => Raise (AttributeError "Name")
  end.
End Entity.

Module Rel.
Definition class_name (x : IfcRelDefines) : string :=
  match x with
  | IfcRelDefinesByProperties _ => "IfcRelDefinesByProperties"
  | IfcRelDefinesByType _ => "IfcRelDefinesByType"
  end.

Definition is_a (x : IfcRelDefines) (c : string) : bool :=
  String.eqb (class_name x) c.

Definition RelatingPropertyDefinition (x : IfcRelDefines)
    : result IfcPropertySetDefinition :=
  match x with
  | IfcRelDefinesByProperties d => Ok d
  | _ => Raise (AttributeError "RelatingPropertyDefinition")
  end.

Definition RelatingType (x : IfcRelDefines) : result IfcTypeObject :=
  match x with
  | IfcRelDefinesByType t => Ok t
  | _ => Raise (AttributeError "RelatingType")
  end.
End Rel.

(** ** Dictionaries *)

(** A key is either the tuple [(set name, record name)] or a string. *)
Abbreviation key := ((option string * option string) + string)%type.

Definition tuple_key (a b : option string) : key := inl (a, b).
Definition str_key (s : string) : key := inr s.

Abbreviation dict := (gmap key pyval).

(** [d.update({k: v})] and [d.update(m)]. *)
Definition update1 (k : key) (v : pyval) (d : dict) : dict := <[k := v]> d.
Definition update (m d : dict) : dict := m ∪ d.

(** ** The relation filters *)

Definition get_related_properties (ifc_instance : IfcObject)
    : result (list IfcPropertySetDefinition) :=
  for_each (fun acc x =>
      if Rel.is_a x "IfcRelDefinesByProperties"
      then d ← Rel.RelatingPropertyDefinition x; Ok (acc ++ [d])
      else Ok acc)
    [] (IsDefinedBy ifc_instance).

Definition get_related_type_definition (ifc_instance : IfcObject)
    : result (list IfcTypeObject) :=
  for_each (fun acc x =>
      if Rel.is_a x "IfcRelDefinesByType"
      then t ← Rel.RelatingType x; Ok (acc ++ [t])
      else Ok acc)
    [] (IsDefinedBy ifc_instance).

Definition get_related_property_sets (ifc_instance : IfcObject)
    : result (list IfcPropertySetDefinition) :=
  for_each (fun properties_list x =>
      if Rel.is_a x "IfcRelDefinesByProperties" then
        d ← Rel.RelatingPropertyDefinition x;
        if PsetDef.is_a d "IfcPropertySet"
        then Ok (properties_list ++ [d])
        else Ok properties_list
      else Ok properties_list)
    [] (IsDefinedBy ifc_instance).

Definition get_related_quantities (ifc_instance : IfcObject)
    : result (list IfcPropertySetDefinition) :=
  for_each (fun quantities_list x =>
      if Rel.is_a x "IfcRelDefinesByProperties" then
        d ← Rel.RelatingPropertyDefinition x;
        if PsetDef.is_a d "IfcElementQuantity"
        then Ok (quantities_list ++ [d])
        else Ok quantities_list
      else Ok quantities_list)
    [] (IsDefinedBy ifc_instance).

(** ** The value flatteners *)

(** The inner loop of [get_property_single_value], over the records [z] of
    a complex property: [z.NominalValue] is read without a class test. *)
Definition complex_body (x : IfcPropertySetDefinition) (attributes_dicts : dict)
    (z : IfcProperty) : result dict :=
  nv ← Property.NominalValue z;
  match nv with
  | Some w =>
      Ok (update1 (tuple_key (PsetDef.Name x) (Property.Name z))
            (wrappedValue w) attributes_dicts)
  | None => Ok attributes_dicts
  end.

(** The body of the outer loop: two consecutive [if] statements. *)
Definition property_body (x : IfcPropertySetDefinition) (attributes_dicts : dict)
    (y : IfcProperty) : result dict :=
  d1 ← (if Property.is_a y "IfcPropertySingleValue" then
          nv ← Property.NominalValue y;
          match nv with
          | Some w =>
              Ok (update1 (tuple_key (PsetDef.Name x) (Property.Name y))
                    (wrappedValue w) attributes_dicts)
          | None => Ok attributes_dicts
          end
        else Ok attributes_dicts);
  if Property.is_a y "IfcComplexProperty" then
    zs ← Property.HasProperties y;
    for_each (complex_body x) d1 zs
  else Ok d1.

Definition get_property_single_value (x : IfcPropertySetDefinition)
    : result dict :=
  ys ← PsetDef.HasProperties x;
  for_each (property_body x) ∅ ys.

(** The comprehension of [get_type_single_value], which runs under [try]:
    it returns the dictionary as updated so far and the exception, if any,
    that stopped it. *)
Fixpoint type_comprehension (x : IfcTypeObject) (type_attr_dicts : dict)
    (ys : list entity_instance) : dict * option exn :=
  match ys with
  | [] => (type_attr_dicts, None)
  | y :: ys' =>
      match Entity.Name y with
      | Ok (Some yn) =>
          match str_add "TypeDefinition_" (type_Name x) with
          | Ok k =>
              type_comprehension x
                (update1 (str_key k) (PStr yn) type_attr_dicts) ys'
          | Raise e => (type_attr_dicts, Some e)
          end
      | Ok None => type_comprehension x type_attr_dicts ys'
      | Raise e => (type_attr_dicts, Some e)
      end
  end.

(** Truth value of [x.HasPropertySets]: [None] and the empty tuple are
    false. *)
Definition truthy {A : Type} (v : option (list A)) : bool :=
  match v with
  | Some (_ :: _) => true
  | _ => false
  end.

(** The function returns the dictionary; the second component is what it
    printed.  The handler builds its line by adding [x.GlobalId] to a
    string, which raises [TypeError] out of the handler when the
    identifier is [None].  (A raised exception is all the model keeps of a
    run that raises: what was printed before it is not recorded.) *)
Definition get_type_single_value (x : IfcTypeObject)
    : result (dict * list string) :=
  if truthy (HasPropertySets x) then
    match type_comprehension x ∅ (default [] (HasPropertySets x)) with
    | (d, None) => Ok (d, [])
    | (d, Some _) =>
        line ← str_add "Type Value Exception for IfcGlobalID " (GlobalId x);
        Ok (d, [line])
    end
  else Ok (∅, []).

(** One record of a quantity set: five consecutive [if] statements. *)
Definition quantity_body (x : IfcPropertySetDefinition) (quantities_dicts : dict)
    (y : IfcPhysicalQuantity) : result dict :=
  let k := tuple_key (PsetDef.Name x) (Quantity.Name y) in
  d1 ← (if Quantity.is_a y "IfcQuantityArea"
        then v ← Quantity.AreaValue y; Ok (update1 k v quantities_dicts)
        else Ok quantities_dicts);
  d2 ← (if Quantity.is_a y "IfcQuantityLength"
        then v ← Quantity.LengthValue y; Ok (update1 k v d1)
        else Ok d1);
  d3 ← (if Quantity.is_a y "IfcQuantityVolume"
        then v ← Quantity.VolumeValue y; Ok (update1 k v d2)
        else Ok d2);
  d4 ← (if Quantity.is_a y "IfcQuantityCount"
        then v ← Quantity.CountValue y; Ok (update1 k v d3)
        else Ok d3);
  if Quantity.is_a y "IfcQuantityWeight"
  then v ← Quantity.WeightValue y; Ok (update1 k v d4)
  else Ok d4.

Definition get_quantity_single_value (x : IfcPropertySetDefinition)
    : result dict :=
  ys ← PsetDef.Quantities x;
  for_each (quantity_body x) ∅ ys.

(** ** The aggregators *)

Definition get_all_quantity_data (ifc_instance : IfcObject) : result dict :=
  xs ← get_related_quantities ifc_instance;
  for_each (fun pset_dict x =>
      m ← get_quantity_single_value x; Ok (update m pset_dict))
    ∅ xs.

(** Merging the type definitions into [pset_dict]: the state of the loop
    is the dictionary and what the calls of [get_type_single_value] have
    printed. *)
Definition type_step (acc : dict * list string) (x : IfcTypeObject)
    : result (dict * list string) :=
  r ← get_type_single_value x;
  Ok (update r.1 acc.1, acc.2 ++ r.2).

Definition type_loop (acc : dict * list string) (xs : list IfcTypeObject)
    : result (dict * list string) :=
  for_each type_step acc xs.

Definition get_all_type_data (ifc_instance : IfcObject)
    : result (dict * list string) :=
  xs ← get_related_type_definition ifc_instance;
  type_loop (∅, []) xs.

Definition get_all_pset_data (ifc_instance : IfcObject) : result dict :=
  xs ← get_related_property_sets ifc_instance;
  for_each (fun pset_dict x =>
      m ← get_property_single_value x; Ok (update m pset_dict))
    ∅ xs.

Definition get_all_instance_data (ifc_instance : IfcObject)
    : result (dict * list string) :=
  ps ← get_related_property_sets ifc_instance;
  d1 ← for_each (fun pset_dict x =>
          m ← get_property_single_value x; Ok (update m pset_dict))
        ∅ ps;
  qs ← get_related_quantities ifc_instance;
  d2 ← for_each (fun pset_dict x =>
          m ← get_quantity_single_value x; Ok (update m pset_dict))
        d1 qs;
  ts ← get_related_type_definition ifc_instance;
  type_loop (d2, []) ts.

(** ** The specification's vocabulary *)

(** The definitions an element reaches through its defines-by-properties
    relationships, and the types it reaches through its defines-by-type
    relationships, in the order of the relationship collection. *)
Definition defined_by_properties (e : IfcObject)
    : list IfcPropertySetDefinition :=
  omap (fun r =>
      match r with
      | IfcRelDefinesByProperties d => Some d
      | IfcRelDefinesByType _ => None
      end)
    (IsDefinedBy e).

Definition defined_by_type (e : IfcObject) : list IfcTypeObject :=
  omap (fun r =>
      match r with
      | IfcRelDefinesByType t => Some t
      | IfcRelDefinesByProperties _ => None
      end)
    (IsDefinedBy e).

(** A definition is tagged [c] when its type-tag predicate accepts [c]. *)
Definition tagged (c : string) (d : IfcPropertySetDefinition) : Prop :=
  PsetDef.is_a d c = true.

#[global] Instance tagged_dec c d : Decision (tagged c d).
Proof. unfold tagged. apply _. Defined.

(** A sequence of single-entry updates, applied in order. *)
Definition apply_updates (es : list (key * pyval)) (d : dict) : dict :=
  foldl (fun acc e => update1 e.1 e.2 acc) d es.

(** *** Property sets *)

Definition is_single_value (z : IfcProperty) : bool :=
  match z with
  | IfcPropertySingleValue _ _ => true
  | _ => false
  end.

(** What a Single Value record emits into the dictionary of the set named
    [set_name]: its key and wrapped value when the value is present. *)
Definition single_value_emission (set_name : option string) (z : IfcProperty)
    : list (key * pyval) :=
  match z with
  | IfcPropertySingleValue n (Some w) =>
      [(tuple_key set_name n, wrappedValue w)]
  | _ => []
  end.

(** What a record of a property set emits: a Single Value its own entry,
    a Complex Property the entries of its nested Single Values, any other
    record nothing. *)
Definition property_emissions (set_name : option string) (y : IfcProperty)
    : list (key * pyval) :=
  match y with
  | IfcComplexProperty _ zs => zs ≫= single_value_emission set_name
  | _ => single_value_emission set_name y
  end.

(** The records of the specification's data model: a Complex Property
    holds Single Value records, and a record of another kind carries
    another class name. *)
Definition in_data_model (y : IfcProperty) : bool :=
  match y with
  | IfcPropertySingleValue _ _ => true
  | IfcComplexProperty _ zs => forallb is_single_value zs
  | IfcPropertyOther c _ =>
      negb (String.eqb c "IfcPropertySingleValue")
      && negb (String.eqb c "IfcComplexProperty")
  end.

(** The records of the IFC schema, where a Complex Property holds
    properties of any kind, complex ones included. *)
Fixpoint schema_property (y : IfcProperty) : bool :=
  match y with
  | IfcPropertySingleValue _ _ => true
  | IfcComplexProperty _ zs => forallb schema_property zs
  | IfcPropertyOther c _ =>
      negb (String.eqb c "IfcPropertySingleValue")
      && negb (String.eqb c "IfcComplexProperty")
  end.

(** *** Quantity sets *)

Definition known_quantity_class (c : string) : bool :=
  bool_decide (c ∈ ["IfcQuantityArea"; "IfcQuantityLength";
                    "IfcQuantityVolume"; "IfcQuantityCount";
                    "IfcQuantityWeight"]).

(** The scalar field that matches the record's variant. *)
Definition matching_field (y : IfcPhysicalQuantity) : option pyval :=
  match y with
  | IfcQuantityArea _ v | IfcQuantityLength _ v | IfcQuantityVolume _ v
  | IfcQuantityCount _ v | IfcQuantityWeight _ v => Some v
  | IfcPhysicalQuantityOther _ _ => None
  end.

Definition quantity_emission (set_name : option string)
    (y : IfcPhysicalQuantity) : list (key * pyval) :=
  match matching_field y with
  | Some v => [(tuple_key set_name (Quantity.Name y), v)]
  | None => []
  end.

(** A record of another kind carries a class name that is none of the five
    known ones. *)
Definition schema_quantity (y : IfcPhysicalQuantity) : bool :=
  match y with
  | IfcPhysicalQuantityOther c _ => negb (known_quantity_class c)
  | _ => true
  end.

(** *** Elements of a loaded model *)

(** A definition of the schema: its records are of the schema, and a
    definition of another kind carries another class name. *)
Definition schema_definition (x : IfcPropertySetDefinition) : bool :=
  match x with
  | IfcPropertySet _ ys => forallb schema_property ys
  | IfcElementQuantity _ ys => forallb schema_quantity ys
  | IfcPropertySetDefinitionOther c _ =>
      negb (String.eqb c "IfcPropertySet")
      && negb (String.eqb c "IfcElementQuantity")
  end.

Definition is_set_definition (y : entity_instance) : bool :=
  match y with
  | SetDefinition _ => true
  | OtherInstance _ => false
  end.

(** A type of the schema: its [GlobalId] is present and its nested entries
    are property set definitions. *)
Definition schema_type (t : IfcTypeObject) : bool :=
  match GlobalId t with
  | Some _ => forallb is_set_definition (default [] (HasPropertySets t))
  | None => false
  end.

Definition schema_relationship (r : IfcRelDefines) : bool :=
  match r with
  | IfcRelDefinesByProperties d => schema_definition d
  | IfcRelDefinesByType t => schema_type t
  end.

Definition schema_element (e : IfcObject) : bool :=
  forallb schema_relationship (IsDefinedBy e).

(** *** Type definitions *)

Definition type_key (type_name : string) : key :=
  str_key ("TypeDefinition_" +:+ type_name).

(** The line printed for a type whose global identifier is [g]. *)
Definition type_exception_line (g : string) : string :=
  "Type Value Exception for IfcGlobalID " +:+ g.

(** What the flattener prints for a type when it returns. *)
Definition printed_by (x : IfcTypeObject) : list string :=
  match get_type_single_value x with
  | Ok r => r.2
  | Raise _ => []
  end.

(** A value of [HasPropertySets] all of whose entries are property set
    definitions. *)
Definition set_entries (hs : option (list IfcPropertySetDefinition))
    : option (list entity_instance) :=
  match hs with
  | Some ds => Some (SetDefinition <$> ds)
  | None => None
  end.

(** The names of the nested property sets that have one, in order. *)
Definition nested_set_names (ds : list IfcPropertySetDefinition)
    : list string :=
  omap PsetDef.Name ds.

(** The dictionary of a type named [tn] after the nested sets [ds] have
    been read: the one key, mapped to the last name read. *)
Definition type_entries (tn : string) (ds : list IfcPropertySetDefinition)
    : dict :=
  match last (nested_set_names ds) with
  | Some n => {[ type_key tn := PStr n ]}
  | None => ∅
  end.

(** The statement that a fault in the guarded comprehension leaves the
    flattener with an empty dictionary. *)
Definition fault_yields_empty_map (x : IfcTypeObject) : Prop :=
  forall ys d e,
    HasPropertySets x = Some ys ->
    type_comprehension x ∅ ys = (d, Some e) ->
    exists line, get_type_single_value x = Ok (∅, [line]).

(** *** Merging the three categories *)

(** Key-wise union in merge order: an entry of the type data overrides one
    of the quantity data, which overrides one of the property data. *)
Definition merge_categories (psets quantities types : dict) : dict :=
  update types (update quantities psets).

(** ** Sample model data *)

Definition IfcInteger (n : Z) : IfcValue := {| wrappedValue := PInt n |}.

(** A property set with a Single Value, a Single Value without a value and
    a Complex Property holding one Single Value. *)
Definition Pset_Foo : IfcPropertySetDefinition :=
  IfcPropertySet (Some "Pset_Foo")
    [ IfcPropertySingleValue (Some "Bar") (Some (IfcInteger 5));
      IfcPropertySingleValue (Some "Baz") None;
      IfcComplexProperty (Some "Complex1")
        [ IfcPropertySingleValue (Some "Sub1") (Some (IfcInteger 3)) ] ].

(** A quantity set with an area, a count, a length whose value is null and
    a record of a kind the flattener does not know. *)
Definition BaseQuantities : IfcPropertySetDefinition :=
  IfcElementQuantity (Some "BaseQuantities")
    [ IfcQuantityArea (Some "NetArea") (PFloat (25 # 2));
      IfcQuantityCount (Some "Openings") (PInt 2);
      IfcQuantityLength (Some "Height") PNone;
      IfcPhysicalQuantityOther "IfcQuantityTime" (Some "Duration") ].

(** A wall type defined by two property sets; a type without a name; a
    wall type whose second nested reference is malformed; and a type that
    has neither a name nor a global identifier. *)
Definition WallType1 : IfcTypeObject :=
  {| GlobalId := Some "2O2Fr$t4X7Zf8NOew3FLOH";
     type_Name := Some "WallType1";
     HasPropertySets :=
       Some [ SetDefinition (IfcPropertySet (Some "Pset_A") []);
              SetDefinition (IfcPropertySet (Some "Pset_B") []) ] |}.

Definition UnnamedType : IfcTypeObject :=
  {| GlobalId := Some "0jf0rYHfX3RAB3bSIRjmoa";
     type_Name := None;
     HasPropertySets :=
       Some [ SetDefinition (IfcPropertySet (Some "Pset_A") []) ] |}.

Definition BrokenWallType : IfcTypeObject :=
  {| GlobalId := Some "3cUkl32yn9qRSPvBJVyWw5";
     type_Name := Some "WallType1";
     HasPropertySets :=
       Some [ SetDefinition (IfcPropertySet (Some "Pset_A") []);
              OtherInstance "IfcCartesianPoint";
              SetDefinition (IfcPropertySet (Some "Pset_B") []) ] |}.

Definition AnonymousType : IfcTypeObject :=
  {| GlobalId := None;
     type_Name := None;
     HasPropertySets :=
       Some [ SetDefinition (IfcPropertySet (Some "Pset_A") []) ] |}.

(** A property set whose Complex Property holds, next to a Single Value,
    a second Complex Property, as the schema allows; and one whose Complex
    Property holds an enumerated value. *)
Definition Pset_Nested : IfcPropertySetDefinition :=
  IfcPropertySet (Some "Pset_Nested")
    [ IfcComplexProperty (Some "Complex1")
        [ IfcPropertySingleValue (Some "Sub1") (Some (IfcInteger 3));
          IfcComplexProperty (Some "Complex2")
            [ IfcPropertySingleValue (Some "Sub2") (Some (IfcInteger 4)) ] ] ].

Definition Pset_Enumerated : IfcPropertySetDefinition :=
  IfcPropertySet (Some "Pset_Enumerated")
    [ IfcComplexProperty (Some "Complex1")
        [ IfcPropertyOther "IfcPropertyEnumeratedValue" (Some "Sub1") ] ].

Definition NestedElement : IfcObject :=
  {| IsDefinedBy := [ IfcRelDefinesByProperties Pset_Nested ] |}.

(** ** Further vocabulary *)

(** The element whose relationship collection is [rels]. *)
Definition element_of (rels : list IfcRelDefines) : IfcObject :=
  {| IsDefinedBy := rels |}.

(** What a property set, and a quantity set, emits: the emissions of its
    records, in order. *)
Definition property_set_emissions (x : IfcPropertySetDefinition)
    : list (key * pyval) :=
  match x with
  | IfcPropertySet n ys => ys ≫= property_emissions n
  | _ => []
  end.

Definition quantity_set_emissions (x : IfcPropertySetDefinition)
    : list (key * pyval) :=
  match x with
  | IfcElementQuantity n ys => ys ≫= quantity_emission n
  | _ => []
  end.

(** The definitions on which the property flattener is not stopped: a
    property set must be of the data model, and a definition of another
    kind must not carry the class name of a property set. *)
Definition flattenable (x : IfcPropertySetDefinition) : bool :=
  match x with
  | IfcPropertySet _ ys => forallb in_data_model ys
  | IfcElementQuantity _ _ => true
  | IfcPropertySetDefinitionOther c _ => negb (String.eqb c "IfcPropertySet")
  end.

(** An element defined by a property set, a quantity set and a type. *)
Definition SampleWall : IfcObject :=
  element_of [ IfcRelDefinesByProperties Pset_Foo;
               IfcRelDefinesByProperties BaseQuantities;
               IfcRelDefinesByType WallType1 ].

(** Dictionaries all of whose keys are tuples, and all of whose keys are
    strings. *)
Definition tuple_keyed (d : dict) : Prop :=
  forall k, is_Some (d !! k) -> exists a b, k = tuple_key a b.

Definition str_keyed (d : dict) : Prop :=
  forall k, is_Some (d !! k) -> exists s, k = str_key s.

(** The records that write nothing: a Single Value without a value, a
    Complex Property whose records are such Single Values, and a record of
    a class the flattener does not handle. *)
Definition null_single_value (z : IfcProperty) : bool :=
  match z with
  | IfcPropertySingleValue _ None => true
  | _ => false
  end.

Definition inert_property (y : IfcProperty) : bool :=
  match y with
  | IfcPropertySingleValue _ None => true
  | IfcPropertySingleValue _ (Some _) => false
  | IfcComplexProperty _ zs => forallb null_single_value zs
  | IfcPropertyOther c _ =>
      negb (String.eqb c "IfcPropertySingleValue")
      && negb (String.eqb c "IfcComplexProperty")
  end.

(** The property set definitions among the entries of [HasPropertySets]. *)
Definition entry_sets (ys : list entity_instance)
    : list IfcPropertySetDefinition :=
  omap (fun y =>
      match y with
      | SetDefinition d => Some d
      | OtherInstance _ => None
      end)
    ys.

(** A type that has a name and whose nested entries are all property set
    definitions: the types on which the flattener does not fault. *)
Definition well_formed_type (x : IfcTypeObject) : bool :=
  match type_Name x with
  | Some _ => forallb is_set_definition (default [] (HasPropertySets x))
  | None => false
  end.

(** What a type emits: its key with the name of its last named nested
    set, if it has a name and such a set. *)
Definition type_emission (x : IfcTypeObject) : list (key * pyval) :=
  match type_Name x with
  | Some tn =>
      match last (nested_set_names
                    (entry_sets (default [] (HasPropertySets x)))) with
      | Some n => [(type_key tn, PStr n)]
      | None => []
      end
  | None => []
  end.

(** * Properties *)

(** ** Loops *)

Lemma bind_Ok {A B : Type} (a : A) (f : A -> result B) :
  (Ok a ≫= f) = f a.
Proof. reflexivity. Qed.

(** ** The relation filters *)

Lemma related_property_sets_loop (c : string) (rels : list IfcRelDefines)
    (acc : list IfcPropertySetDefinition) :
  for_each (fun l x =>
      if Rel.is_a x "IfcRelDefinesByProperties" then
        d ← Rel.RelatingPropertyDefinition x;
        if PsetDef.is_a d c then Ok (l ++ [d]) else Ok l
      else Ok l)
    acc rels
  = Ok (acc ++ filter (tagged c) (defined_by_properties {| IsDefinedBy := rels |})).
Proof.
  unfold defined_by_properties. simpl.
  revert acc. induction rels as [|r rels IH]; intros acc; simpl.
  - by rewrite app_nil_r.
  - destruct r as [d|t]; simpl.
    + rewrite filter_cons.
      destruct (decide (tagged c d)) as [Hd|Hd]; unfold tagged in Hd.
      * rewrite Hd. simpl. rewrite IH. by rewrite <- app_assoc.
      * apply not_true_is_false in Hd. rewrite Hd. simpl. apply IH.
    + apply IH.
Qed.

Lemma related_type_loop (rels : list IfcRelDefines) (acc : list IfcTypeObject) :
  for_each (fun l x =>
      if Rel.is_a x "IfcRelDefinesByType"
      then t ← Rel.RelatingType x; Ok (l ++ [t])
      else Ok l)
    acc rels
  = Ok (acc ++ defined_by_type {| IsDefinedBy := rels |}).
Proof.
  unfold defined_by_type. simpl.
  revert acc. induction rels as [|r rels IH]; intros acc; simpl.
  - by rewrite app_nil_r.
  - destruct r as [d|t]; simpl.
    + apply IH.
    + rewrite IH. by rewrite <- app_assoc.
Qed.

Lemma get_related_property_sets_eq (e : IfcObject) :
  get_related_property_sets e
  = Ok (filter (tagged "IfcPropertySet") (defined_by_properties e)).
Proof.
  destruct e as [rels]. unfold get_related_property_sets. simpl.
  apply (related_property_sets_loop "IfcPropertySet" rels []).
Qed.

Lemma get_related_quantities_eq (e : IfcObject) :
  get_related_quantities e
  = Ok (filter (tagged "IfcElementQuantity") (defined_by_properties e)).
Proof.
  destruct e as [rels]. unfold get_related_quantities. simpl.
  apply (related_property_sets_loop "IfcElementQuantity" rels []).
Qed.

Lemma get_related_type_definition_eq (e : IfcObject) :
  get_related_type_definition e = Ok (defined_by_type e).
Proof.
  destruct e as [rels]. unfold get_related_type_definition. simpl.
  apply (related_type_loop rels []).
Qed.

(** C8.  [get_related_property_sets] returns exactly the definitions reached
    through defines-by-properties relationships that are tagged as a
    property set, and [get_related_quantities] exactly those tagged as a
    quantity set; neither raises, and both keep the order of the element's
    relationship collection (each result is an order-preserving
    subsequence of the reached definitions). *)
Theorem related_sets_are_filtered_by_tag (e : IfcObject) :
  get_related_property_sets e
    = Ok (filter (tagged "IfcPropertySet") (defined_by_properties e))
  /\ get_related_quantities e
    = Ok (filter (tagged "IfcElementQuantity") (defined_by_properties e))
  /\ (forall c d,
        d ∈ filter (tagged c) (defined_by_properties e) <->
        PsetDef.is_a d c = true /\
        IfcRelDefinesByProperties d ∈ IsDefinedBy e)
  /\ (forall c, filter (tagged c) (defined_by_properties e)
                 `sublist_of` defined_by_properties e).
Proof.
  split; [apply get_related_property_sets_eq|].
  split; [apply get_related_quantities_eq|].
  split.
  - intros c d. rewrite list_elem_of_filter. unfold tagged, defined_by_properties.
    rewrite list_elem_of_omap. split.
    + intros [Hc [r [Hr Hd]]]. split; [done|].
      destruct r; simplify_eq. done.
    + intros [Hc Hr]. split; [done|]. by exists (IfcRelDefinesByProperties d).
  - intros c. apply sublist_filter.
Qed.

(** ** Elements without definition relationships *)

(** C9.  For an element whose relationship collection is empty, the four
    category extractors return the empty dictionary (and print nothing)
    and the relation filters the empty list; none of them raises. *)
Theorem no_relationships_empty_maps (e : IfcObject) :
  IsDefinedBy e = [] ->
  get_all_pset_data e = Ok ∅
  /\ get_all_quantity_data e = Ok ∅
  /\ get_all_type_data e = Ok (∅, [])
  /\ get_all_instance_data e = Ok (∅, [])
  /\ get_related_properties e = Ok []
  /\ get_related_property_sets e = Ok []
  /\ get_related_quantities e = Ok []
  /\ get_related_type_definition e = Ok [].
Proof.
  intros He.
  unfold get_all_pset_data, get_all_quantity_data, get_all_type_data,
    get_all_instance_data, get_related_properties, get_related_property_sets,
    get_related_quantities, get_related_type_definition.
  rewrite He. simpl. done.
Qed.

Lemma no_relationships_empty_maps_witness :
  let e := {| IsDefinedBy := [] |} in
  get_all_pset_data e = Ok ∅
  /\ get_all_quantity_data e = Ok ∅
  /\ get_all_type_data e = Ok (∅, [])
  /\ get_all_instance_data e = Ok (∅, []).
Proof.
  destruct (no_relationships_empty_maps {| IsDefinedBy := [] |} eq_refl)
    as (Hp & Hq & Ht & Hi & _).
  simpl. by repeat split.
Defined.

(** ** Dictionaries *)

(** Non-membership in an explicit list of distinct constants. *)
Ltac not_in_list :=
  let H := fresh in
  intros H; simpl in H;
  repeat (apply elem_of_cons in H as [H|H]; [discriminate H|]);
  by apply elem_of_nil in H.

(** Looking a constant key up in an explicit chain of updates. *)
Ltac lookup_updates :=
  unfold update1, update, tuple_key, str_key;
  repeat (rewrite lookup_insert_ne by (let H := fresh in intros H; discriminate H));
  first [apply lookup_insert_eq | apply lookup_empty].

Lemma apply_updates_app (es1 es2 : list (key * pyval)) (d : dict) :
  apply_updates (es1 ++ es2) d = apply_updates es2 (apply_updates es1 d).
Proof. apply foldl_app. Qed.

Lemma apply_updates_cons (e : key * pyval) (es : list (key * pyval)) (d : dict) :
  apply_updates (e :: es) d = apply_updates es (update1 e.1 e.2 d).
Proof. reflexivity. Qed.

Lemma lookup_apply_updates_notin (es : list (key * pyval)) (d : dict) (k : key) :
  k ∉ es.*1 -> apply_updates es d !! k = d !! k.
Proof.
  revert d. induction es as [|[k' v'] es IH]; intros d Hk; [done|].
  rewrite apply_updates_cons. simpl in *.
  apply not_elem_of_cons in Hk as [Hne Hk].
  rewrite IH by done. unfold update1. by rewrite lookup_insert_ne.
Qed.

(** The last update of a key decides its value. *)
Lemma lookup_apply_updates_last (es1 es2 : list (key * pyval)) (d : dict)
    (k : key) (v : pyval) :
  k ∉ es2.*1 -> apply_updates (es1 ++ (k, v) :: es2) d !! k = Some v.
Proof.
  intros Hk. rewrite apply_updates_app, apply_updates_cons.
  rewrite lookup_apply_updates_notin by done.
  unfold update1. simpl. apply lookup_insert_eq.
Qed.

Lemma lookup_apply_updates_Some (es : list (key * pyval)) (d : dict)
    (k : key) (v : pyval) :
  apply_updates es d !! k = Some v -> (k, v) ∈ es \/ d !! k = Some v.
Proof.
  revert d. induction es as [|[k' v'] es IH]; intros d Hk; [by right|].
  rewrite apply_updates_cons in Hk. apply IH in Hk as [Hk|Hk].
  - left. by right.
  - unfold update1 in Hk. simpl in Hk.
    destruct (decide (k' = k)) as [->|Hne].
    + rewrite lookup_insert_eq in Hk. simplify_eq. left. by left.
    + rewrite lookup_insert_ne in Hk by done. by right.
Qed.

Lemma apply_updates_dom (es : list (key * pyval)) (d : dict) (k : key) :
  k ∈ es.*1 -> is_Some (apply_updates es d !! k).
Proof.
  revert d. induction es as [|[k' v'] es IH]; intros d Hk; simpl in Hk.
  - by apply elem_of_nil in Hk.
  - destruct (decide (k ∈ es.*1)) as [Hin|Hout].
    + rewrite apply_updates_cons. by apply IH.
    + apply elem_of_cons in Hk as [->|Hk]; [|done].
      rewrite apply_updates_cons, lookup_apply_updates_notin by done.
      unfold update1. simpl. rewrite lookup_insert_eq. by eexists.
Qed.

(** ** The property flattener *)

Lemma complex_loop_spec (x : IfcPropertySetDefinition) (zs : list IfcProperty)
    (d : dict) :
  forallb is_single_value zs = true ->
  for_each (complex_body x) d zs
  = Ok (apply_updates (zs ≫= single_value_emission (PsetDef.Name x)) d).
Proof.
  revert d. induction zs as [|z zs IH]; intros d Hzs; [done|].
  simpl in Hzs. apply andb_true_iff in Hzs as [Hz Hzs].
  rewrite bind_cons, apply_updates_app. simpl.
  destruct z as [n [w|]| |]; try discriminate; simpl; by rewrite IH.
Qed.

Lemma property_body_spec (x : IfcPropertySetDefinition) (y : IfcProperty)
    (d : dict) :
  in_data_model y = true ->
  property_body x d y
  = Ok (apply_updates (property_emissions (PsetDef.Name x) y) d).
Proof.
  intros Hy. destruct y as [n nv|n zs|c n]; unfold property_body.
  - destruct nv; reflexivity.
  - simpl. by apply complex_loop_spec.
  - simpl in Hy. apply andb_true_iff in Hy as [H1 H2].
    apply negb_true_iff in H1, H2.
    unfold Property.is_a. simpl. by rewrite H1, H2.
Qed.

Lemma property_loop_spec (x : IfcPropertySetDefinition) (ys : list IfcProperty)
    (d : dict) :
  forallb in_data_model ys = true ->
  for_each (property_body x) d ys
  = Ok (apply_updates (ys ≫= property_emissions (PsetDef.Name x)) d).
Proof.
  revert d. induction ys as [|y ys IH]; intros d Hys; [done|].
  simpl in Hys. apply andb_true_iff in Hys as [Hy Hys].
  rewrite bind_cons, apply_updates_app. simpl.
  rewrite property_body_spec by done. simpl. by apply IH.
Qed.

(** On a property set of the data model the flattener returns the
    dictionary built from the emissions of its records, in order. *)
Lemma get_property_single_value_spec (name : option string)
    (ys : list IfcProperty) :
  forallb in_data_model ys = true ->
  get_property_single_value (IfcPropertySet name ys)
  = Ok (apply_updates (ys ≫= property_emissions name) ∅).
Proof.
  intros Hys. unfold get_property_single_value. simpl.
  by apply (property_loop_spec (IfcPropertySet name ys)).
Qed.

Lemma in_data_model_app (l1 l2 : list IfcProperty) :
  forallb in_data_model (l1 ++ l2) = true <->
  forallb in_data_model l1 = true /\ forallb in_data_model l2 = true.
Proof. rewrite forallb_app. apply andb_true_iff. Qed.

(** C7.  On a property set [ys] of the data model the flattener returns a
    dictionary [m] in which every Single Value record with a present
    wrapped value has its key (set name, record name); the key is mapped to
    the wrapped value of that record unless a later record of the set
    writes the same key; and a Single Value record whose wrapped value is
    null contributes nothing: the dictionary is the one of the set without
    that record. *)
Theorem single_values_are_flattened (name : option string)
    (ys : list IfcProperty) :
  forallb in_data_model ys = true ->
  exists m : dict,
    get_property_single_value (IfcPropertySet name ys) = Ok m
    /\ (forall n w, IfcPropertySingleValue n (Some w) ∈ ys ->
          is_Some (m !! tuple_key name n))
    /\ (forall l1 n w l2,
          ys = l1 ++ IfcPropertySingleValue n (Some w) :: l2 ->
          tuple_key name n ∉ (l2 ≫= property_emissions name).*1 ->
          m !! tuple_key name n = Some (wrappedValue w))
    /\ (forall l1 n l2,
          ys = l1 ++ IfcPropertySingleValue n None :: l2 ->
          get_property_single_value (IfcPropertySet name (l1 ++ l2)) = Ok m).
Proof.
  intros Hys. eexists. split; [by apply get_property_single_value_spec|].
  split; [|split].
  - intros n w Hin. apply apply_updates_dom.
    apply list_elem_of_fmap. exists (tuple_key name n, wrappedValue w).
    split; [done|]. apply list_elem_of_bind. eexists. split; [|done].
    simpl. by left.
  - intros l1 n w l2 -> Hk. rewrite bind_app, bind_cons. simpl.
    by apply lookup_apply_updates_last.
  - intros l1 n l2 ->. apply in_data_model_app in Hys as [H1 H2].
    simpl in H2. rewrite get_property_single_value_spec.
    + by rewrite !bind_app, bind_cons.
    + by apply in_data_model_app.
Qed.

Lemma single_values_are_flattened_witness :
  exists m : dict,
    get_property_single_value Pset_Foo = Ok m
    /\ m !! tuple_key (Some "Pset_Foo") (Some "Bar") = Some (PInt 5)
    /\ m !! tuple_key (Some "Pset_Foo") (Some "Baz") = None.
Proof.
  destruct (single_values_are_flattened (Some "Pset_Foo")
    [ IfcPropertySingleValue (Some "Bar") (Some (IfcInteger 5));
      IfcPropertySingleValue (Some "Baz") None;
      IfcComplexProperty (Some "Complex1")
        [ IfcPropertySingleValue (Some "Sub1") (Some (IfcInteger 3)) ] ]
    eq_refl) as (m & Hm & _ & Hval & _).
  exists m. split; [exact Hm|]. split.
  - apply (Hval [] (Some "Bar") (IfcInteger 5) _ eq_refl). not_in_list.
  - unfold Pset_Foo in Hm.
    rewrite get_property_single_value_spec in Hm by reflexivity.
    injection Hm as <-.
    lookup_updates.
Defined.

Lemma elem_of_single_value_emission (name : option string) (z : IfcProperty)
    (k : key) (v : pyval) :
  (k, v) ∈ single_value_emission name z ->
  exists n w, z = IfcPropertySingleValue n (Some w)
              /\ k = tuple_key name n /\ v = wrappedValue w.
Proof.
  destruct z as [n [w|]| |]; simpl; intros H;
    try (by apply elem_of_nil in H).
  apply list_elem_of_singleton in H. simplify_eq. by exists n, w.
Qed.

(** C1.  On a property set [ys] of the data model the flattener returns a
    dictionary [m] such that: for a Complex Property record, every nested
    Single Value record with a present wrapped value has its key (set
    name, nested record name) mapped to its value, unless a later nested
    record or a later record of the set writes the same key; the name of
    the Complex Property has no part in the result, which is the same
    whatever that name is; and every key of [m] is the name of a Single
    Value record with a present value, at the top level or nested one
    level inside a Complex Property. *)
Theorem complex_properties_are_flattened (name : option string)
    (ys : list IfcProperty) :
  forallb in_data_model ys = true ->
  exists m : dict,
    get_property_single_value (IfcPropertySet name ys) = Ok m
    /\ (forall l1 cn z1 n w z2 l2,
          ys = l1 ++ IfcComplexProperty cn
                       (z1 ++ IfcPropertySingleValue n (Some w) :: z2) :: l2 ->
          tuple_key name n ∉
            ((z2 ≫= single_value_emission name)
             ++ (l2 ≫= property_emissions name)).*1 ->
          m !! tuple_key name n = Some (wrappedValue w))
    /\ (forall l1 cn zs l2 cn',
          ys = l1 ++ IfcComplexProperty cn zs :: l2 ->
          get_property_single_value
            (IfcPropertySet name (l1 ++ IfcComplexProperty cn' zs :: l2))
          = Ok m)
    /\ (forall k, is_Some (m !! k) ->
          exists n w, k = tuple_key name n /\
            (IfcPropertySingleValue n (Some w) ∈ ys \/
             exists cn zs, IfcComplexProperty cn zs ∈ ys /\
                           IfcPropertySingleValue n (Some w) ∈ zs)).
Proof.
  intros Hys. eexists. split; [by apply get_property_single_value_spec|].
  split; [|split].
  - intros l1 cn z1 n w z2 l2 -> Hk.
    rewrite bind_app, bind_cons. simpl. rewrite bind_app, bind_cons. simpl.
    rewrite <- !app_assoc. rewrite app_assoc. simpl.
    by apply lookup_apply_updates_last.
  - intros l1 cn zs l2 cn' ->. apply in_data_model_app in Hys as [H1 H2].
    simpl in H2. rewrite get_property_single_value_spec.
    + by rewrite !bind_app, !bind_cons.
    + by apply in_data_model_app.
  - intros k [v Hk]. apply lookup_apply_updates_Some in Hk as [Hk|Hk];
      [|by rewrite lookup_empty in Hk].
    apply list_elem_of_bind in Hk as (y & Hky & Hy).
    destruct y as [n nv|cn zs|c n].
    + change (property_emissions name (IfcPropertySingleValue n nv))
        with (single_value_emission name (IfcPropertySingleValue n nv)) in Hky.
      apply elem_of_single_value_emission in Hky as (n' & w & Heq & -> & _).
      exists n', w. split; [done|]. left. by rewrite <- Heq.
    + simpl in Hky. apply list_elem_of_bind in Hky as (z & Hkz & Hz).
      apply elem_of_single_value_emission in Hkz as (n' & w & -> & -> & _).
      exists n', w. split; [done|]. right. by exists cn, zs.
    + simpl in Hky. by apply elem_of_nil in Hky.
Qed.

Lemma complex_properties_are_flattened_witness :
  exists m : dict,
    get_property_single_value Pset_Foo = Ok m
    /\ m !! tuple_key (Some "Pset_Foo") (Some "Sub1") = Some (PInt 3)
    /\ m !! tuple_key (Some "Pset_Foo") (Some "Complex1") = None.
Proof.
  destruct (complex_properties_are_flattened (Some "Pset_Foo")
    [ IfcPropertySingleValue (Some "Bar") (Some (IfcInteger 5));
      IfcPropertySingleValue (Some "Baz") None;
      IfcComplexProperty (Some "Complex1")
        [ IfcPropertySingleValue (Some "Sub1") (Some (IfcInteger 3)) ] ]
    eq_refl) as (m & Hm & Hval & _ & Hkeys).
  exists m. split; [exact Hm|]. split.
  - apply (Hval [_; _] (Some "Complex1") [] (Some "Sub1") (IfcInteger 3) [] []
             eq_refl).
    simpl. apply not_elem_of_nil.
  - destruct (m !! tuple_key (Some "Pset_Foo") (Some "Complex1")) as [v|] eqn:Hc;
      [|reflexivity].
    destruct (Hkeys _ (mk_is_Some _ _ Hc)) as (n & w & Hk & Hsrc).
    unfold tuple_key in Hk. simplify_eq. exfalso.
    destruct Hsrc as [Hsrc|(cn & zs & Hcx & Hz)].
    + repeat (apply elem_of_cons in Hsrc as [Hsrc|Hsrc]; [discriminate|]).
      by apply elem_of_nil in Hsrc.
    + repeat (apply elem_of_cons in Hcx as [Hcx|Hcx];
              [try discriminate|]).
      * injection Hcx as -> ->.
        repeat (apply elem_of_cons in Hz as [Hz|Hz]; [discriminate|]).
        by apply elem_of_nil in Hz.
      * by apply elem_of_nil in Hcx.
Defined.

(** ** The quantity flattener *)

Lemma for_each_emissions {A : Type} (body : dict -> A -> result dict)
    (emit : A -> list (key * pyval)) (ys : list A) :
  Forall (fun y => forall d, body d y = Ok (apply_updates (emit y) d)) ys ->
  forall d, for_each body d ys = Ok (apply_updates (ys ≫= emit) d).
Proof.
  induction 1 as [|y ys Hy _ IH]; intros d; [done|].
  rewrite bind_cons, apply_updates_app. simpl. rewrite Hy. simpl. apply IH.
Qed.

Lemma unknown_quantity_class (c : string) :
  known_quantity_class c = false ->
  String.eqb c "IfcQuantityArea" = false
  /\ String.eqb c "IfcQuantityLength" = false
  /\ String.eqb c "IfcQuantityVolume" = false
  /\ String.eqb c "IfcQuantityCount" = false
  /\ String.eqb c "IfcQuantityWeight" = false.
Proof.
  unfold known_quantity_class. intros Hc.
  apply bool_decide_eq_false in Hc.
  repeat split; apply String.eqb_neq; intros ->; apply Hc;
    repeat first [by left | right].
Qed.

Lemma quantity_body_spec (x : IfcPropertySetDefinition)
    (y : IfcPhysicalQuantity) (d : dict) :
  schema_quantity y = true ->
  quantity_body x d y
  = Ok (apply_updates (quantity_emission (PsetDef.Name x) y) d).
Proof.
  intros Hy. destruct y as [n v|n v|n v|n v|n v|c n]; try reflexivity.
  simpl in Hy. apply negb_true_iff, unknown_quantity_class in Hy
    as (H1 & H2 & H3 & H4 & H5).
  unfold quantity_body, Quantity.is_a. simpl.
  by rewrite H1, H2, H3, H4, H5.
Qed.

Lemma get_quantity_single_value_spec (name : option string)
    (ys : list IfcPhysicalQuantity) :
  forallb schema_quantity ys = true ->
  get_quantity_single_value (IfcElementQuantity name ys)
  = Ok (apply_updates (ys ≫= quantity_emission name) ∅).
Proof.
  intros Hys. unfold get_quantity_single_value. simpl.
  apply (for_each_emissions (quantity_body (IfcElementQuantity name ys))).
  apply Forall_forall. intros y Hy d. apply quantity_body_spec.
  apply list_elem_of_In in Hy.
  by apply (proj1 (forallb_forall _ _) Hys).
Qed.

Lemma schema_quantity_app (l1 l2 : list IfcPhysicalQuantity) :
  forallb schema_quantity (l1 ++ l2) = true <->
  forallb schema_quantity l1 = true /\ forallb schema_quantity l2 = true.
Proof. rewrite forallb_app. apply andb_true_iff. Qed.

Lemma quantity_emission_field (name : option string) (y : IfcPhysicalQuantity)
    (v : pyval) :
  matching_field y = Some v ->
  quantity_emission name y = [(tuple_key name (Quantity.Name y), v)].
Proof. unfold quantity_emission. by intros ->. Qed.

(** C6.  On a quantity set the flattener returns a dictionary [m] (it does
    not raise) in which a record of one of the five variants has its key
    (set name, record name) mapped to the scalar field of its variant,
    unless a later record writes the same key; a record of another class
    contributes nothing, the dictionary being the one of the set without
    it; and every key of [m] comes from a record of one of the five
    variants. *)
Theorem quantities_are_flattened (name : option string)
    (ys : list IfcPhysicalQuantity) :
  forallb schema_quantity ys = true ->
  exists m : dict,
    get_quantity_single_value (IfcElementQuantity name ys) = Ok m
    /\ (forall l1 y v l2,
          ys = l1 ++ y :: l2 ->
          matching_field y = Some v ->
          tuple_key name (Quantity.Name y)
            ∉ (l2 ≫= quantity_emission name).*1 ->
          m !! tuple_key name (Quantity.Name y) = Some v)
    /\ (forall l1 c n l2,
          ys = l1 ++ IfcPhysicalQuantityOther c n :: l2 ->
          get_quantity_single_value (IfcElementQuantity name (l1 ++ l2))
          = Ok m)
    /\ (forall k, is_Some (m !! k) ->
          exists y, y ∈ ys /\ is_Some (matching_field y)
                    /\ k = tuple_key name (Quantity.Name y)).
Proof.
  intros Hys. eexists. split; [by apply get_quantity_single_value_spec|].
  split; [|split].
  - intros l1 y v l2 -> Hv Hk. rewrite bind_app, bind_cons.
    rewrite (quantity_emission_field _ _ _ Hv). simpl.
    by apply lookup_apply_updates_last.
  - intros l1 c n l2 ->. apply schema_quantity_app in Hys as [H1 H2].
    simpl in H2. apply andb_true_iff in H2 as [_ H2].
    rewrite get_quantity_single_value_spec.
    + by rewrite !bind_app, bind_cons.
    + by apply schema_quantity_app.
  - intros k [v Hk]. apply lookup_apply_updates_Some in Hk as [Hk|Hk];
      [|by rewrite lookup_empty in Hk].
    apply list_elem_of_bind in Hk as (y & Hky & Hy).
    exists y. split; [done|]. unfold quantity_emission in Hky.
    destruct (matching_field y) as [v'|]; [|by apply elem_of_nil in Hky].
    apply list_elem_of_singleton in Hky. simplify_eq. by split.
Qed.

Lemma quantities_are_flattened_witness :
  exists m : dict,
    get_quantity_single_value BaseQuantities = Ok m
    /\ m !! tuple_key (Some "BaseQuantities") (Some "NetArea")
       = Some (PFloat (25 # 2))
    /\ m !! tuple_key (Some "BaseQuantities") (Some "Openings")
       = Some (PInt 2)
    /\ m !! tuple_key (Some "BaseQuantities") (Some "Duration") = None.
Proof.
  destruct (quantities_are_flattened (Some "BaseQuantities")
    [ IfcQuantityArea (Some "NetArea") (PFloat (25 # 2));
      IfcQuantityCount (Some "Openings") (PInt 2);
      IfcQuantityLength (Some "Height") PNone;
      IfcPhysicalQuantityOther "IfcQuantityTime" (Some "Duration") ]
    eq_refl) as (m & Hm & Hval & _ & Hkeys).
  exists m. split; [exact Hm|]. split; [|split].
  - apply (Hval [] (IfcQuantityArea (Some "NetArea") (PFloat (25 # 2))) _ _
             eq_refl eq_refl).
    not_in_list.
  - apply (Hval [_] (IfcQuantityCount (Some "Openings") (PInt 2)) _ _
             eq_refl eq_refl).
    not_in_list.
  - unfold BaseQuantities in Hm.
    rewrite get_quantity_single_value_spec in Hm by reflexivity.
    injection Hm as <-. lookup_updates.
Defined.

(** C10.  A quantity record whose scalar field is null still contributes
    its key: on a quantity set the flattener returns a dictionary in which
    the key (set name, record name) of such a record is present, and is
    mapped to [None] unless a later record writes the same key.  A Single
    Value property whose value is null, by contrast, leaves the dictionary
    of its property set empty. *)
Theorem null_quantities_are_emitted (name : option string)
    (ys : list IfcPhysicalQuantity) :
  forallb schema_quantity ys = true ->
  (exists m : dict,
     get_quantity_single_value (IfcElementQuantity name ys) = Ok m
     /\ forall l1 y l2,
          ys = l1 ++ y :: l2 ->
          matching_field y = Some PNone ->
          is_Some (m !! tuple_key name (Quantity.Name y))
          /\ (tuple_key name (Quantity.Name y)
                ∉ (l2 ≫= quantity_emission name).*1 ->
              m !! tuple_key name (Quantity.Name y) = Some PNone))
  /\ (forall pname n,
        get_property_single_value
          (IfcPropertySet pname [IfcPropertySingleValue n None]) = Ok ∅).
Proof.
  intros Hys. split; [|reflexivity].
  eexists. split; [by apply get_quantity_single_value_spec|].
  intros l1 y l2 -> Hv. split.
  - apply apply_updates_dom. rewrite bind_app, bind_cons.
    rewrite (quantity_emission_field _ _ _ Hv).
    rewrite fmap_app. apply elem_of_app. right. by left.
  - intros Hk. rewrite bind_app, bind_cons.
    rewrite (quantity_emission_field _ _ _ Hv). simpl.
    by apply lookup_apply_updates_last.
Qed.

Lemma null_quantities_are_emitted_witness :
  exists m : dict,
    get_quantity_single_value BaseQuantities = Ok m
    /\ m !! tuple_key (Some "BaseQuantities") (Some "Height") = Some PNone.
Proof.
  destruct (null_quantities_are_emitted (Some "BaseQuantities")
    [ IfcQuantityArea (Some "NetArea") (PFloat (25 # 2));
      IfcQuantityCount (Some "Openings") (PInt 2);
      IfcQuantityLength (Some "Height") PNone;
      IfcPhysicalQuantityOther "IfcQuantityTime" (Some "Duration") ]
    eq_refl) as [(m & Hm & Hnull) _].
  exists m. split; [exact Hm|].
  apply (Hnull [_; _] (IfcQuantityLength (Some "Height") PNone) [_]
           eq_refl eq_refl).
  not_in_list.
Defined.

(** ** The type flattener *)

Lemma type_comprehension_sets (x : IfcTypeObject) (tn : string)
    (ds : list IfcPropertySetDefinition) (rest : list entity_instance)
    (d : dict) :
  type_Name x = Some tn ->
  type_comprehension x d ((SetDefinition <$> ds) ++ rest)
  = type_comprehension x
      (apply_updates
         (map (fun n => (type_key tn, PStr n)) (nested_set_names ds)) d)
      rest.
Proof.
  intros Hx. revert d. induction ds as [|y ds IH]; intros d; [done|].
  simpl. unfold nested_set_names. simpl.
  destruct (PsetDef.Name y) as [yn|]; simpl.
  - rewrite Hx. simpl. by rewrite IH.
  - by rewrite IH.
Qed.

(** Without a type name the comprehension leaves the dictionary as it
    was: it raises at the first entry that has a name or none to read. *)
Lemma type_comprehension_unnamed (x : IfcTypeObject)
    (ys : list entity_instance) (d : dict) :
  type_Name x = None -> (type_comprehension x d ys).1 = d.
Proof.
  intros Hx. induction ys as [|y ys IH]; [done|].
  simpl. destruct y as [y|c]; simpl; [|done].
  destruct (PsetDef.Name y) as [yn|]; [|done]. by rewrite Hx.
Qed.

(** All entries are written under one key: whatever stops the
    comprehension, at most the entry written last is added. *)
Lemma type_comprehension_fault (x : IfcTypeObject)
    (ys : list entity_instance) (d d' : dict) (e : exn) :
  type_comprehension x d ys = (d', Some e) ->
  d' = d \/ exists tn n, type_Name x = Some tn
                          /\ d' = <[type_key tn := PStr n]> d.
Proof.
  revert d. induction ys as [|y ys IH]; intros d; [done|].
  simpl. destruct y as [y|c]; simpl.
  - destruct (PsetDef.Name y) as [yn|]; [|apply IH].
    destruct (type_Name x) as [tn|] eqn:Hx; simpl.
    + intros Hc. right. exists tn. apply IH in Hc as [->|(tn' & n & Htn & ->)].
      * by exists yn.
      * exists n. split; [done|]. simplify_eq. unfold update1.
        by rewrite insert_insert_eq.
    + intros. simplify_eq. by left.
  - intros. simplify_eq. by left.
Qed.

Lemma apply_updates_same_key (k : key) (names : list string) (d : dict) :
  apply_updates (map (fun n => (k, PStr n)) names) d
  = match last names with
    | Some n => <[k := PStr n]> d
    | None => d
    end.
Proof.
  revert d. induction names as [|n names IH]; intros d; [done|].
  simpl map. rewrite apply_updates_cons, IH. simpl.
  rewrite last_cons. unfold update1.
  destruct (last names); [apply insert_insert_eq | done].
Qed.

Lemma apply_updates_type_entries (tn : string)
    (ds : list IfcPropertySetDefinition) :
  apply_updates
    (map (fun n => (type_key tn, PStr n)) (nested_set_names ds)) ∅
  = type_entries tn ds.
Proof.
  rewrite apply_updates_same_key. unfold type_entries.
  destruct (last _); [by rewrite insert_empty | done].
Qed.

Lemma get_type_single_value_fault (x : IfcTypeObject)
    (ys : list entity_instance) (d : dict) (e : exn) (g : string) :
  HasPropertySets x = Some ys ->
  type_comprehension x ∅ ys = (d, Some e) ->
  GlobalId x = Some g ->
  get_type_single_value x = Ok (d, [type_exception_line g]).
Proof.
  intros Hys Hc Hg. unfold get_type_single_value. rewrite Hys.
  destruct ys as [|y ys]; [discriminate Hc|].
  change (truthy (Some (y :: ys))) with true.
  change (default [] (Some (y :: ys))) with (y :: ys).
  by rewrite Hc, Hg.
Qed.

(** Without a global identifier the handler itself raises. *)
Lemma get_type_single_value_fault_anonymous (x : IfcTypeObject)
    (ys : list entity_instance) (d : dict) (e : exn) :
  HasPropertySets x = Some ys ->
  type_comprehension x ∅ ys = (d, Some e) ->
  GlobalId x = None ->
  get_type_single_value x = Raise TypeError.
Proof.
  intros Hys Hc Hg. unfold get_type_single_value. rewrite Hys.
  destruct ys as [|y ys]; [discriminate Hc|].
  change (truthy (Some (y :: ys))) with true.
  change (default [] (Some (y :: ys))) with (y :: ys).
  by rewrite Hc, Hg.
Qed.

(** The flattener on a type whose entries, up to a malformed one, are the
    sets [ds]. *)
Lemma get_type_single_value_malformed (x : IfcTypeObject) (tn c g : string)
    (ds : list IfcPropertySetDefinition) (rest : list entity_instance) :
  type_Name x = Some tn ->
  HasPropertySets x = Some ((SetDefinition <$> ds) ++ OtherInstance c :: rest) ->
  GlobalId x = Some g ->
  get_type_single_value x = Ok (type_entries tn ds, [type_exception_line g]).
Proof.
  intros Hx Hys Hg.
  apply (get_type_single_value_fault x _ _ (AttributeError "Name") g Hys);
    [|done].
  rewrite (type_comprehension_sets x tn) by done.
  by rewrite apply_updates_type_entries.
Qed.

Lemma get_type_single_value_named (g : option string) (tn : string)
    (hs : option (list IfcPropertySetDefinition)) :
  get_type_single_value
    {| GlobalId := g; type_Name := Some tn;
       HasPropertySets := set_entries hs |}
  = Ok (apply_updates
          (map (fun n => (type_key tn, PStr n))
             (nested_set_names (default [] hs))) ∅,
        []).
Proof.
  unfold get_type_single_value. simpl.
  destruct hs as [[|y ys]|]; try reflexivity.
  change (truthy _) with true.
  change (default [] (set_entries (Some (y :: ys))))
    with (SetDefinition <$> (y :: ys)).
  rewrite <- (app_nil_r (SetDefinition <$> y :: ys)).
  by rewrite (type_comprehension_sets _ tn).
Qed.

(** C3, as the code has it.  When the Element Type has no nested property
    sets the type flattener returns the empty dictionary and prints
    nothing.  When the guarded comprehension is stopped by an exception
    and the type has a global identifier, the flattener prints the line
    that carries the identifier and returns, instead of raising, the
    dictionary as written up to the fault, which holds at most the one
    entry of the type: it is empty when the type has no name, and when the
    entries read before a malformed one are the sets [ds] it is the
    dictionary of a type with just those sets.  When the comprehension is
    stopped by an exception and the type has no global identifier, the
    handler raises [TypeError], which the flattener does not catch. *)
Theorem type_flattener_faults_are_caught (x : IfcTypeObject) :
  (truthy (HasPropertySets x) = false ->
     get_type_single_value x = Ok (∅, []))
  /\ (forall ys d e g,
        HasPropertySets x = Some ys ->
        type_comprehension x ∅ ys = (d, Some e) ->
        GlobalId x = Some g ->
        get_type_single_value x = Ok (d, [type_exception_line g])
        /\ (d = ∅ \/ exists tn n, type_Name x = Some tn
                                  /\ d = {[ type_key tn := PStr n ]})
        /\ (type_Name x = None -> d = ∅))
  /\ (forall ys d e,
        HasPropertySets x = Some ys ->
        type_comprehension x ∅ ys = (d, Some e) ->
        GlobalId x = None ->
        get_type_single_value x = Raise TypeError)
  /\ (forall tn ds c rest g,
        type_Name x = Some tn ->
        HasPropertySets x
          = Some ((SetDefinition <$> ds) ++ OtherInstance c :: rest) ->
        GlobalId x = Some g ->
        get_type_single_value x
        = Ok (type_entries tn ds, [type_exception_line g])).
Proof.
  split; [|split; [|split]].
  - intros Hno. unfold get_type_single_value. by rewrite Hno.
  - intros ys d e g Hys Hc Hg.
    split; [by apply (get_type_single_value_fault x ys d e)|]. split.
    + destruct (type_comprehension_fault _ _ _ _ _ Hc)
        as [->|(tn & n & Htn & ->)]; [by left|].
      right. exists tn, n. by rewrite insert_empty.
    + intros Hx. rewrite <- (type_comprehension_unnamed x ys ∅ Hx).
      by rewrite Hc.
  - apply get_type_single_value_fault_anonymous.
  - intros tn ds c rest g. apply get_type_single_value_malformed.
Qed.

Lemma type_flattener_faults_are_caught_witness :
  get_type_single_value UnnamedType
  = Ok (∅, ["Type Value Exception for IfcGlobalID 0jf0rYHfX3RAB3bSIRjmoa"])
  /\ get_type_single_value BrokenWallType
     = Ok ({[ str_key "TypeDefinition_WallType1" := PStr "Pset_A" ]},
           ["Type Value Exception for IfcGlobalID 3cUkl32yn9qRSPvBJVyWw5"])
  /\ get_type_single_value AnonymousType = Raise TypeError
  /\ get_type_single_value
       {| GlobalId := Some "1XWwKC0yn1ug7$Ea$XKS1l";
          type_Name := Some "Empty";
          HasPropertySets := None |}
     = Ok (∅, []).
Proof.
  split; [|split; [|split]].
  - apply (proj1 (proj2 (type_flattener_faults_are_caught UnnamedType))
             [ SetDefinition (IfcPropertySet (Some "Pset_A") []) ]
             ∅ TypeError "0jf0rYHfX3RAB3bSIRjmoa" eq_refl eq_refl eq_refl).
  - apply (proj2 (proj2 (proj2 (type_flattener_faults_are_caught BrokenWallType)))
             "WallType1" [ IfcPropertySet (Some "Pset_A") [] ]
             "IfcCartesianPoint"
             [ SetDefinition (IfcPropertySet (Some "Pset_B") []) ]
             "3cUkl32yn9qRSPvBJVyWw5" eq_refl eq_refl eq_refl).
  - apply (proj1 (proj2 (proj2 (type_flattener_faults_are_caught AnonymousType)))
             [ SetDefinition (IfcPropertySet (Some "Pset_A") []) ]
             ∅ TypeError eq_refl eq_refl eq_refl).
  - apply (proj1 (type_flattener_faults_are_caught _)). reflexivity.
Defined.

(** The flattener does not always return the empty dictionary when a
    fault stops the comprehension: on [BrokenWallType] the name of the
    second entry cannot be read, and the entry written for the first one
    stays in the result. *)
Lemma fault_after_first_entry_keeps_it :
  ~ fault_yields_empty_map BrokenWallType.
Proof.
  intros Hempty.
  assert (Hc : type_comprehension BrokenWallType ∅
                 [ SetDefinition (IfcPropertySet (Some "Pset_A") []);
                   OtherInstance "IfcCartesianPoint";
                   SetDefinition (IfcPropertySet (Some "Pset_B") []) ]
               = (type_entries "WallType1" [ IfcPropertySet (Some "Pset_A") [] ],
                  Some (AttributeError "Name"))).
  { rewrite <- apply_updates_type_entries. reflexivity. }
  destruct (Hempty _ _ _ eq_refl Hc) as [line H1].
  rewrite (get_type_single_value_fault BrokenWallType _ _ _
             "3cUkl32yn9qRSPvBJVyWw5" eq_refl Hc eq_refl) in H1.
  assert (H2 : type_entries "WallType1" [ IfcPropertySet (Some "Pset_A") [] ]
               = (∅ : dict)) by congruence.
  change (type_entries _ _)
    with ({[ type_key "WallType1" := PStr "Pset_A" ]} : dict) in H2.
  by apply (map_non_empty_singleton (M := gmap key)) in H2.
Qed.

(** A fault in a type without a global identifier is not caught: the
    handler raises while it builds the line to print. *)
Lemma fault_without_identifier_propagates :
  get_type_single_value AnonymousType = Raise TypeError
  /\ get_all_type_data (element_of [ IfcRelDefinesByType AnonymousType ])
     = Raise TypeError
  /\ get_all_instance_data (element_of [ IfcRelDefinesByType AnonymousType ])
     = Raise TypeError.
Proof. repeat split; reflexivity. Qed.

(** C4.  For an Element Type named [tn] whose nested property sets are
    [hs], the type flattener applies, for each nested set that has a name
    and in their order, the update of the one key ["TypeDefinition_" + tn]
    with that set's name, and prints nothing; the result therefore holds
    that key mapped to the name of the last named nested set, or is empty
    when there is none.  For the type "WallType1" with nested sets
    "Pset_A" then "Pset_B" the flattener, and [get_all_type_data] on an
    element of that type, yield exactly the dictionary with the entry
    "TypeDefinition_WallType1" to "Pset_B". *)
Theorem type_flattener_last_set_wins (g : option string) (tn : string)
    (hs : option (list IfcPropertySetDefinition)) :
  get_type_single_value
    {| GlobalId := g; type_Name := Some tn;
       HasPropertySets := set_entries hs |}
  = Ok (apply_updates
          (map (fun n => (str_key ("TypeDefinition_" +:+ tn), PStr n))
             (nested_set_names (default [] hs))) ∅,
        [])
  /\ get_type_single_value
       {| GlobalId := g; type_Name := Some tn;
          HasPropertySets := set_entries hs |}
     = Ok (match last (nested_set_names (default [] hs)) with
           | Some n => {[ str_key ("TypeDefinition_" +:+ tn) := PStr n ]}
           | None => ∅
           end,
           [])
  /\ get_type_single_value WallType1
     = Ok ({[ str_key "TypeDefinition_WallType1" := PStr "Pset_B" ]}, [])
  /\ get_all_type_data {| IsDefinedBy := [IfcRelDefinesByType WallType1] |}
     = Ok ({[ str_key "TypeDefinition_WallType1" := PStr "Pset_B" ]}, []).
Proof.
  assert (Hlast : forall g' tn' hs',
    get_type_single_value
      {| GlobalId := g'; type_Name := Some tn';
         HasPropertySets := set_entries hs' |}
    = Ok (type_entries tn' (default [] hs'), [])).
  { intros g' tn' hs'. rewrite get_type_single_value_named.
    by rewrite apply_updates_type_entries. }
  split; [apply get_type_single_value_named|].
  split; [apply Hlast|].
  assert (Hwall : get_type_single_value WallType1
    = Ok ({[ str_key "TypeDefinition_WallType1" := PStr "Pset_B" ]}, [])).
  { apply (Hlast _ "WallType1"
             (Some [ IfcPropertySet (Some "Pset_A") [];
                     IfcPropertySet (Some "Pset_B") [] ])). }
  split; [exact Hwall|].
  unfold get_all_type_data. rewrite get_related_type_definition_eq, bind_Ok.
  change (defined_by_type _) with [WallType1].
  unfold type_loop. cbn [for_each]. unfold type_step at 1.
  rewrite Hwall, !bind_Ok. cbn [fst snd app for_each]. unfold update.
  by rewrite (right_id_L ∅ (∪)).
Qed.

(** ** Merging the categories *)

Lemma update_empty_r (m : dict) : update m ∅ = m.
Proof. unfold update. apply (right_id_L ∅ (∪)). Qed.

Lemma update_assoc (m1 m2 m3 : dict) :
  update m1 (update m2 m3) = update (update m1 m2) m3.
Proof. unfold update. apply (assoc_L (∪)). Qed.

(** Merging the flattened sets into a dictionary [d] is merging them into
    an empty one and updating [d] with the outcome. *)
Lemma merge_loop_from {A : Type} (f : A -> result dict) (xs : list A)
    (d : dict) :
  for_each (fun pset_dict x => m ← f x; Ok (update m pset_dict)) d xs
  = (for_each (fun pset_dict x => m ← f x; Ok (update m pset_dict)) ∅ xs
     ≫= fun m => Ok (update m d)).
Proof.
  revert d. induction xs as [|x xs IH]; intros d; simpl.
  - unfold update. by rewrite (left_id_L ∅ (∪)).
  - destruct (f x) as [m1|e]; simpl; [|done].
    rewrite (IH (update m1 d)), (IH (update m1 ∅)).
    destruct (for_each _ ∅ xs) as [m|e]; simpl; [|done].
    by rewrite update_empty_r, update_assoc.
Qed.

Lemma type_step_Ok (acc : dict * list string) (x : IfcTypeObject)
    (m : dict) (printed : list string) :
  get_type_single_value x = Ok (m, printed) ->
  type_step acc x = Ok (update m acc.1, acc.2 ++ printed).
Proof. unfold type_step. by intros ->. Qed.

Lemma type_step_Raise (acc : dict * list string) (x : IfcTypeObject)
    (err : exn) :
  get_type_single_value x = Raise err -> type_step acc x = Raise err.
Proof. unfold type_step. by intros ->. Qed.

Lemma type_loop_from (xs : list IfcTypeObject) (d : dict) (out : list string) :
  type_loop (d, out) xs
  = (type_loop (∅, []) xs ≫= fun r => Ok (update r.1 d, out ++ r.2)).
Proof.
  unfold type_loop. revert d out. induction xs as [|x xs IH]; intros d out.
  - cbn [for_each]. rewrite bind_Ok. cbn [fst snd]. unfold update.
    by rewrite (left_id_L ∅ (∪)), app_nil_r.
  - cbn [for_each].
    destruct (get_type_single_value x) as [[m printed]|err] eqn:Hx.
    2:{ by rewrite !(type_step_Raise _ _ _ Hx). }
    rewrite !(type_step_Ok _ _ _ _ Hx), !bind_Ok. cbn [fst snd].
    rewrite (IH (update m d)), (IH (update m ∅)).
    destruct (for_each type_step (∅, []) xs) as [[t o]|err]; [|done].
    rewrite !bind_Ok. cbn [fst snd app].
    by rewrite update_empty_r, update_assoc, app_assoc.
Qed.

Lemma lookup_merge_categories (psets quantities types : dict) (k : key) :
  merge_categories psets quantities types !! k
  = match types !! k with
    | Some v => Some v
    | None =>
        match quantities !! k with
        | Some v => Some v
        | None => psets !! k
        end
    end.
Proof.
  unfold merge_categories, update. rewrite !lookup_union.
  destruct (types !! k), (quantities !! k), (psets !! k); reflexivity.
Qed.

(** C5.  [get_all_instance_data] is the three category extractors run in
    the order properties, quantities, type, its dictionary being their
    key-wise union in which an entry of a later category overrides an
    entry of an earlier one (and its output being what the type
    extraction prints); it raises exactly when one of them does. *)
Theorem instance_data_is_union_of_categories (e : IfcObject) :
  get_all_instance_data e
  = (p ← get_all_pset_data e;
     q ← get_all_quantity_data e;
     t ← get_all_type_data e;
     Ok (merge_categories p q t.1, t.2))
  /\ (forall (p q t : dict) (k : key),
        merge_categories p q t !! k
        = match t !! k with
          | Some v => Some v
          | None =>
              match q !! k with
              | Some v => Some v
              | None => p !! k
              end
          end).
Proof.
  split; [|apply lookup_merge_categories].
  unfold get_all_instance_data, get_all_pset_data, get_all_quantity_data,
    get_all_type_data.
  rewrite get_related_property_sets_eq, get_related_quantities_eq,
    get_related_type_definition_eq.
  simpl.
  destruct (for_each _ ∅ (filter (tagged "IfcPropertySet") _)) as [p|err];
    simpl; [|done].
  rewrite merge_loop_from.
  destruct (for_each _ ∅ (filter (tagged "IfcElementQuantity") _)) as [q|err];
    simpl; [|done].
  rewrite type_loop_from.
  by destruct (type_loop (∅, []) (defined_by_type e)) as [[t o]|err].
Qed.

(** ** Raising and not raising on the elements of a loaded model *)

Lemma merge_loop_total {A : Type} (f : A -> result dict) (xs : list A) :
  Forall (fun x => exists m, f x = Ok m) xs ->
  forall d, exists m,
    for_each (fun pset_dict x => m ← f x; Ok (update m pset_dict)) d xs = Ok m.
Proof.
  induction 1 as [|x xs [m Hm] _ IH]; intros d; simpl.
  - by exists d.
  - rewrite Hm. simpl. apply IH.
Qed.

(** The quantity extraction and the type extraction return for every
    element of the schema. *)
Lemma get_all_quantity_data_total (e : IfcObject) :
  schema_element e = true -> exists m, get_all_quantity_data e = Ok m.
Proof.
  intros He. unfold get_all_quantity_data.
  rewrite get_related_quantities_eq, bind_Ok. apply merge_loop_total.
  apply Forall_forall. intros x Hx.
  apply list_elem_of_filter in Hx as [Htag Hx].
  apply list_elem_of_omap in Hx as (r & Hr & Hd).
  destruct r as [d|t]; simplify_eq.
  unfold schema_element in He.
  apply list_elem_of_In in Hr.
  pose proof (proj1 (forallb_forall _ _) He _ Hr) as Hd. simpl in Hd.
  destruct x as [n ys|n ys|c n]; unfold tagged, PsetDef.is_a in Htag;
    simpl in Htag; try discriminate.
  - eexists. by apply get_quantity_single_value_spec.
  - apply andb_true_iff in Hd as [_ Hd]. apply negb_true_iff in Hd. congruence.
Qed.

Lemma get_type_single_value_total (x : IfcTypeObject) (g : string) :
  GlobalId x = Some g -> exists r, get_type_single_value x = Ok r.
Proof.
  intros Hg. unfold get_type_single_value.
  destruct (truthy (HasPropertySets x)); [|by eexists].
  destruct (type_comprehension x ∅ _) as [d [err|]]; [|by eexists].
  rewrite Hg. by eexists.
Qed.

Lemma type_loop_total (xs : list IfcTypeObject) :
  Forall (fun x => exists r, get_type_single_value x = Ok r) xs ->
  forall acc, exists r, type_loop acc xs = Ok r.
Proof.
  unfold type_loop.
  induction 1 as [|x xs [[m printed] Hx] _ IH]; intros acc; cbn [for_each].
  - by exists acc.
  - rewrite (type_step_Ok _ _ _ _ Hx), bind_Ok. apply IH.
Qed.

Lemma elem_of_defined_by_type (e : IfcObject) (t : IfcTypeObject) :
  t ∈ defined_by_type e -> IfcRelDefinesByType t ∈ IsDefinedBy e.
Proof.
  unfold defined_by_type. rewrite list_elem_of_omap.
  intros (r & Hr & Ht). destruct r; by simplify_eq.
Qed.

Lemma get_all_type_data_total (e : IfcObject) :
  schema_element e = true -> exists r, get_all_type_data e = Ok r.
Proof.
  intros He. unfold get_all_type_data.
  rewrite get_related_type_definition_eq, bind_Ok. apply type_loop_total.
  apply Forall_forall. intros t Ht. apply elem_of_defined_by_type in Ht.
  apply list_elem_of_In in Ht.
  pose proof (proj1 (forallb_forall _ _) He _ Ht) as Hschema.
  simpl in Hschema. unfold schema_type in Hschema.
  destruct (GlobalId t) as [g|] eqn:Hg; [|discriminate].
  by apply (get_type_single_value_total t g).
Qed.

Lemma complex_loop_raises (x : IfcPropertySetDefinition)
    (zs : list IfcProperty) (d : dict) :
  forallb is_single_value zs = false ->
  for_each (complex_body x) d zs = Raise (AttributeError "NominalValue").
Proof.
  revert d. induction zs as [|z zs IH]; intros d Hzs; [discriminate|].
  simpl in Hzs. destruct z as [n nv| |]; try reflexivity.
  simpl in Hzs. simpl. destruct nv as [w|]; simpl; by apply IH.
Qed.

(** On the property sets of the schema the flattener raises exactly when
    a Complex Property holds a record that is not a Single Value. *)
Lemma get_property_single_value_raises (name : option string)
    (ys : list IfcProperty) :
  forallb schema_property ys = true ->
  forallb in_data_model ys = false ->
  get_property_single_value (IfcPropertySet name ys)
  = Raise (AttributeError "NominalValue").
Proof.
  unfold get_property_single_value. simpl.
  generalize (∅ : dict) as d.
  induction ys as [|y ys IH]; intros d Hschema Hmodel; [discriminate|].
  simpl in Hschema, Hmodel. apply andb_true_iff in Hschema as [Hy Hys].
  simpl. destruct (in_data_model y) eqn:Hin.
  - rewrite property_body_spec by done. simpl. by apply IH.
  - destruct y as [n nv|n zs|c n]; try discriminate.
    + unfold property_body. simpl.
      by rewrite complex_loop_raises.
    + simpl in Hy, Hin. congruence.
Qed.

(** C2.  The property flattener reads [NominalValue] of every record
    nested in a Complex Property without testing its class, as it does for
    the records of the set itself.  On [Pset_Nested], whose records are
    all of the schema, it raises [AttributeError], and so do
    [get_all_pset_data] and [get_all_instance_data] on the element that
    the set defines; it raises on [Pset_Enumerated] as well. *)
Theorem nested_complex_property_raises :
  schema_definition Pset_Nested = true
  /\ schema_element NestedElement = true
  /\ get_property_single_value Pset_Nested
     = Raise (AttributeError "NominalValue")
  /\ get_all_pset_data NestedElement = Raise (AttributeError "NominalValue")
  /\ get_all_instance_data NestedElement
     = Raise (AttributeError "NominalValue")
  /\ schema_definition Pset_Enumerated = true
  /\ get_property_single_value Pset_Enumerated
     = Raise (AttributeError "NominalValue").
Proof. repeat split; reflexivity. Qed.

(** * Further properties of the module *)

(** ** The relation filters, continued *)

Lemma related_properties_loop (rels : list IfcRelDefines)
    (acc : list IfcPropertySetDefinition) :
  for_each (fun l x =>
      if Rel.is_a x "IfcRelDefinesByProperties"
      then d ← Rel.RelatingPropertyDefinition x; Ok (l ++ [d])
      else Ok l)
    acc rels
  = Ok (acc ++ defined_by_properties {| IsDefinedBy := rels |}).
Proof.
  unfold defined_by_properties. simpl.
  revert acc. induction rels as [|r rels IH]; intros acc; simpl.
  - by rewrite app_nil_r.
  - destruct r as [d|t]; simpl.
    + rewrite IH. by rewrite <- app_assoc.
    + apply IH.
Qed.

Lemma get_related_properties_eq (e : IfcObject) :
  get_related_properties e = Ok (defined_by_properties e).
Proof.
  destruct e as [rels]. unfold get_related_properties. simpl.
  apply (related_properties_loop rels []).
Qed.

Lemma tagged_exclusive (d : IfcPropertySetDefinition) (c1 c2 : string) :
  tagged c1 d -> tagged c2 d -> c1 = c2.
Proof.
  unfold tagged, PsetDef.is_a. intros H1 H2.
  apply String.eqb_eq in H1, H2. congruence.
Qed.

(** X1.  [get_related_properties] returns, without raising, every
    definition reached through a defines-by-properties relationship, of
    whatever kind, in the order of the relationship collection.  The lists
    of [get_related_property_sets] and of [get_related_quantities] are
    order-preserving subsequences of it that have no definition in
    common. *)
Theorem related_properties_are_unfiltered (e : IfcObject) :
  get_related_properties e = Ok (defined_by_properties e)
  /\ (forall d, d ∈ defined_by_properties e <->
                 IfcRelDefinesByProperties d ∈ IsDefinedBy e)
  /\ exists ps qs,
       get_related_property_sets e = Ok ps
       /\ get_related_quantities e = Ok qs
       /\ ps `sublist_of` defined_by_properties e
       /\ qs `sublist_of` defined_by_properties e
       /\ (forall d, d ∈ ps -> d ∉ qs).
Proof.
  split; [apply get_related_properties_eq|]. split.
  - intros d. unfold defined_by_properties. rewrite list_elem_of_omap. split.
    + intros (r & Hr & Hd). destruct r; by simplify_eq.
    + intros Hr. by exists (IfcRelDefinesByProperties d).
  - eexists _, _. split; [apply get_related_property_sets_eq|].
    split; [apply get_related_quantities_eq|].
    split; [apply sublist_filter|]. split; [apply sublist_filter|].
    intros d Hp Hq. apply list_elem_of_filter in Hp as [Hp _].
    apply list_elem_of_filter in Hq as [Hq _].
    by pose proof (tagged_exclusive d _ _ Hp Hq).
Qed.

(** X2.  [get_related_type_definition] returns, without raising, exactly
    the types reached through the defines-by-type relationships of the
    element, in the order of the relationship collection; relationships
    of the other kind contribute nothing to it. *)
Theorem related_types_are_collected (e : IfcObject) :
  get_related_type_definition e = Ok (defined_by_type e)
  /\ (forall t, t ∈ defined_by_type e <->
                 IfcRelDefinesByType t ∈ IsDefinedBy e)
  /\ (forall rels1 d rels2,
        IsDefinedBy e = rels1 ++ IfcRelDefinesByProperties d :: rels2 ->
        get_related_type_definition e
        = get_related_type_definition (element_of (rels1 ++ rels2))).
Proof.
  split; [apply get_related_type_definition_eq|]. split.
  - intros t. unfold defined_by_type. rewrite list_elem_of_omap. split.
    + intros (r & Hr & Ht). destruct r; by simplify_eq.
    + intros Hr. by exists (IfcRelDefinesByType t).
  - intros rels1 d rels2 He. rewrite !get_related_type_definition_eq.
    unfold defined_by_type, element_of. rewrite He. simpl.
    by rewrite !omap_app.
Qed.

(** X3.  The relation filters distribute over the concatenation of
    relationship collections: the result for [rels1 ++ rels2] is the
    result for [rels1] followed by the result for [rels2]. *)
Theorem relation_filters_distribute (rels1 rels2 : list IfcRelDefines) :
  get_related_properties (element_of (rels1 ++ rels2))
    = (a ← get_related_properties (element_of rels1);
       b ← get_related_properties (element_of rels2); Ok (a ++ b))
  /\ get_related_property_sets (element_of (rels1 ++ rels2))
    = (a ← get_related_property_sets (element_of rels1);
       b ← get_related_property_sets (element_of rels2); Ok (a ++ b))
  /\ get_related_quantities (element_of (rels1 ++ rels2))
    = (a ← get_related_quantities (element_of rels1);
       b ← get_related_quantities (element_of rels2); Ok (a ++ b))
  /\ get_related_type_definition (element_of (rels1 ++ rels2))
    = (a ← get_related_type_definition (element_of rels1);
       b ← get_related_type_definition (element_of rels2); Ok (a ++ b)).
Proof.
  rewrite !get_related_properties_eq, !get_related_property_sets_eq,
    !get_related_quantities_eq, !get_related_type_definition_eq.
  unfold defined_by_properties, defined_by_type, element_of. simpl.
  rewrite !omap_app, !filter_app. done.
Qed.

(** ** The aggregators as one sequence of updates *)

Lemma apply_updates_union (es : list (key * pyval)) (d : dict) :
  apply_updates es d = update (apply_updates es ∅) d.
Proof.
  unfold update. revert d. induction es as [|[k v] es IH]; intros d.
  - simpl. by rewrite (left_id_L ∅ (∪)).
  - rewrite !apply_updates_cons. simpl.
    rewrite (IH (update1 k v d)), (IH (update1 k v ∅)).
    rewrite <- (assoc_L (∪)). f_equal. unfold update1.
    by rewrite <- insert_union_l, (left_id_L ∅ (∪)).
Qed.

Lemma merge_loop_emissions {A : Type} (f : A -> result dict)
    (em : A -> list (key * pyval)) (xs : list A) :
  Forall (fun x => f x = Ok (apply_updates (em x) ∅)) xs ->
  forall d,
    for_each (fun pset_dict x => m ← f x; Ok (update m pset_dict)) d xs
    = Ok (apply_updates (xs ≫= em) d).
Proof.
  induction 1 as [|x xs Hx _ IH]; intros d; [done|].
  rewrite bind_cons, apply_updates_app. simpl. rewrite Hx. simpl.
  by rewrite IH, <- apply_updates_union.
Qed.

Lemma flattenable_property_set (x : IfcPropertySetDefinition) :
  flattenable x = true -> tagged "IfcPropertySet" x ->
  get_property_single_value x
  = Ok (apply_updates (property_set_emissions x) ∅).
Proof.
  intros Hx Htag. destruct x as [n ys|n ys|c n]; simpl in Hx.
  - by apply get_property_single_value_spec.
  - discriminate Htag.
  - unfold tagged, PsetDef.is_a in Htag. simpl in Htag.
    apply negb_true_iff in Hx. congruence.
Qed.

Lemma elem_of_defined_by_properties (e : IfcObject)
    (d : IfcPropertySetDefinition) :
  d ∈ defined_by_properties e -> IfcRelDefinesByProperties d ∈ IsDefinedBy e.
Proof.
  unfold defined_by_properties. rewrite list_elem_of_omap.
  intros (r & Hr & Hd). destruct r; by simplify_eq.
Qed.

Lemma forallb_elem_of {A : Type} (f : A -> bool) (l : list A) (x : A) :
  forallb f l = true -> x ∈ l -> f x = true.
Proof.
  intros Hl Hx. apply list_elem_of_In in Hx.
  by apply (proj1 (forallb_forall f l) Hl).
Qed.

Lemma elem_of_bind_keys {A : Type} (em : A -> list (key * pyval))
    (xs : list A) (k : key) :
  k ∈ (xs ≫= em).*1 <-> exists x v, x ∈ xs /\ (k, v) ∈ em x.
Proof.
  rewrite list_elem_of_fmap. split.
  - intros ([k' v] & -> & Hkv). apply list_elem_of_bind in Hkv as (x & Hkv & Hx).
    by exists x, v.
  - intros (x & v & Hx & Hkv). exists (k, v). split; [done|].
    apply list_elem_of_bind. by exists x.
Qed.

(** X4.  When every definition the element reaches is flattenable,
    [get_all_pset_data] returns the dictionary obtained by applying, to
    the empty dictionary, the emissions of all reached property sets as
    one sequence in relationship order: a later set overwrites an earlier
    one on a common key.  Its keys are exactly the keys emitted by the
    reached property sets, and each entry is an emission of one of
    them. *)
Theorem pset_data_is_one_update_sequence (e : IfcObject) :
  forallb flattenable (defined_by_properties e) = true ->
  exists (ps : list IfcPropertySetDefinition) (m : dict),
    get_related_property_sets e = Ok ps
    /\ get_all_pset_data e = Ok m
    /\ m = apply_updates (ps ≫= property_set_emissions) ∅
    /\ (forall k, is_Some (m !! k) <->
                   exists x v, x ∈ ps /\ (k, v) ∈ property_set_emissions x)
    /\ (forall k v, m !! k = Some v ->
                     exists x, x ∈ ps /\ (k, v) ∈ property_set_emissions x).
Proof.
  intros He. eexists _, _. split; [apply get_related_property_sets_eq|].
  assert (Hm : get_all_pset_data e
    = Ok (apply_updates
            (filter (tagged "IfcPropertySet") (defined_by_properties e)
               ≫= property_set_emissions) ∅)).
  { unfold get_all_pset_data. rewrite get_related_property_sets_eq, bind_Ok.
    apply merge_loop_emissions. apply Forall_forall. intros x Hx.
    apply list_elem_of_filter in Hx as [Htag Hx].
    apply flattenable_property_set; [|done].
    by apply (forallb_elem_of _ _ _ He). }
  split; [exact Hm|]. split; [done|]. split.
  - intros k. rewrite <- elem_of_bind_keys. split.
    + intros [v Hk]. apply lookup_apply_updates_Some in Hk as [Hk|Hk];
        [|by rewrite lookup_empty in Hk].
      apply list_elem_of_fmap. by exists (k, v).
    + apply apply_updates_dom.
  - intros k v Hk. apply lookup_apply_updates_Some in Hk as [Hk|Hk];
      [|by rewrite lookup_empty in Hk].
    apply list_elem_of_bind in Hk as (x & Hkv & Hx). by exists x.
Qed.

Lemma pset_data_is_one_update_sequence_witness :
  exists m : dict,
    get_all_pset_data SampleWall = Ok m
    /\ m !! tuple_key (Some "Pset_Foo") (Some "Sub1") = Some (PInt 3).
Proof.
  destruct (pset_data_is_one_update_sequence SampleWall eq_refl)
    as (ps & m & Hps & Hm & -> & _).
  vm_compute in Hps. injection Hps as <-.
  eexists. split; [exact Hm|].
  apply (lookup_apply_updates_last
           [(tuple_key (Some "Pset_Foo") (Some "Bar"), PInt 5)] [] ∅
           (tuple_key (Some "Pset_Foo") (Some "Sub1")) (PInt 3)).
  not_in_list.
Defined.

Lemma elem_of_schema_element (e : IfcObject) (x : IfcPropertySetDefinition) :
  schema_element e = true -> x ∈ defined_by_properties e ->
  schema_definition x = true.
Proof.
  intros He Hx. apply elem_of_defined_by_properties in Hx.
  apply (forallb_elem_of _ _ _ He Hx).
Qed.

Lemma schema_quantity_set (x : IfcPropertySetDefinition) :
  schema_definition x = true -> tagged "IfcElementQuantity" x ->
  get_quantity_single_value x
  = Ok (apply_updates (quantity_set_emissions x) ∅).
Proof.
  intros Hx Htag. destruct x as [n ys|n ys|c n]; simpl in Hx.
  - discriminate Htag.
  - by apply get_quantity_single_value_spec.
  - unfold tagged, PsetDef.is_a in Htag. simpl in Htag.
    apply andb_true_iff in Hx as [_ Hx]. apply negb_true_iff in Hx. congruence.
Qed.

Lemma get_all_quantity_data_schema (e : IfcObject) :
  schema_element e = true ->
  get_all_quantity_data e
  = Ok (apply_updates
          (filter (tagged "IfcElementQuantity") (defined_by_properties e)
             ≫= quantity_set_emissions) ∅).
Proof.
  intros He. unfold get_all_quantity_data.
  rewrite get_related_quantities_eq, bind_Ok.
  apply merge_loop_emissions. apply Forall_forall. intros x Hx.
  apply list_elem_of_filter in Hx as [Htag Hx].
  apply schema_quantity_set; [|done]. by apply (elem_of_schema_element e).
Qed.

(** X5.  On an element of the schema [get_all_quantity_data] returns the
    dictionary obtained by applying the emissions of all reached quantity
    sets as one sequence in relationship order; its keys are exactly the
    keys emitted by the reached quantity sets, and each entry is an
    emission of one of them. *)
Theorem quantity_data_is_one_update_sequence (e : IfcObject) :
  schema_element e = true ->
  exists (qs : list IfcPropertySetDefinition) (m : dict),
    get_related_quantities e = Ok qs
    /\ get_all_quantity_data e = Ok m
    /\ m = apply_updates (qs ≫= quantity_set_emissions) ∅
    /\ (forall k, is_Some (m !! k) <->
                   exists x v, x ∈ qs /\ (k, v) ∈ quantity_set_emissions x)
    /\ (forall k v, m !! k = Some v ->
                     exists x, x ∈ qs /\ (k, v) ∈ quantity_set_emissions x).
Proof.
  intros He. eexists _, _. split; [apply get_related_quantities_eq|].
  split; [by apply get_all_quantity_data_schema|]. split; [done|]. split.
  - intros k. rewrite <- elem_of_bind_keys. split.
    + intros [v Hk]. apply lookup_apply_updates_Some in Hk as [Hk|Hk];
        [|by rewrite lookup_empty in Hk].
      apply list_elem_of_fmap. by exists (k, v).
    + apply apply_updates_dom.
  - intros k v Hk. apply lookup_apply_updates_Some in Hk as [Hk|Hk];
      [|by rewrite lookup_empty in Hk].
    apply list_elem_of_bind in Hk as (x & Hkv & Hx). by exists x.
Qed.

Lemma quantity_data_is_one_update_sequence_witness :
  exists m : dict,
    get_all_quantity_data SampleWall = Ok m
    /\ m !! tuple_key (Some "BaseQuantities") (Some "Height") = Some PNone.
Proof.
  destruct (quantity_data_is_one_update_sequence SampleWall eq_refl)
    as (qs & m & Hqs & Hm & -> & _).
  vm_compute in Hqs. injection Hqs as <-.
  eexists. split; [exact Hm|].
  apply (lookup_apply_updates_last
           [(tuple_key (Some "BaseQuantities") (Some "NetArea"),
             PFloat (25 # 2));
            (tuple_key (Some "BaseQuantities") (Some "Openings"), PInt 2)]
           [] ∅
           (tuple_key (Some "BaseQuantities") (Some "Height")) PNone).
  not_in_list.
Defined.

(** ** When the aggregators raise *)

Lemma get_all_instance_data_eq (e : IfcObject) :
  get_all_instance_data e
  = (p ← get_all_pset_data e;
     q ← get_all_quantity_data e;
     t ← get_all_type_data e;
     Ok (merge_categories p q t.1, t.2)).
Proof.
  unfold get_all_instance_data, get_all_pset_data, get_all_quantity_data,
    get_all_type_data.
  rewrite get_related_property_sets_eq, get_related_quantities_eq,
    get_related_type_definition_eq.
  rewrite !bind_Ok.
  destruct (for_each _ ∅ (filter (tagged "IfcPropertySet") _)) as [p|err];
    [|done].
  rewrite !bind_Ok, merge_loop_from.
  destruct (for_each _ ∅ (filter (tagged "IfcElementQuantity") _)) as [q|err];
    [|done].
  rewrite !bind_Ok, type_loop_from. reflexivity.
Qed.

Lemma merge_loop_raises {A : Type} (f : A -> result dict) (ex : exn)
    (xs : list A) :
  Forall (fun x => (exists m, f x = Ok m) \/ f x = Raise ex) xs ->
  Exists (fun x => f x = Raise ex) xs ->
  forall d,
    for_each (fun pset_dict x => m ← f x; Ok (update m pset_dict)) d xs
    = Raise ex.
Proof.
  induction 1 as [|x xs Hx _ IH]; intros Hbad d.
  - by apply Exists_nil in Hbad.
  - simpl. destruct Hx as [[m Hm]|Hr].
    + rewrite Hm. simpl. apply IH.
      apply Exists_cons in Hbad as [Hbad|Hbad]; [congruence|done].
    + by rewrite Hr.
Qed.

Lemma schema_property_set_outcome (x : IfcPropertySetDefinition) :
  schema_definition x = true -> tagged "IfcPropertySet" x ->
  if flattenable x
  then exists m, get_property_single_value x = Ok m
  else get_property_single_value x = Raise (AttributeError "NominalValue").
Proof.
  intros Hx Htag. destruct x as [n ys|n ys|c n]; simpl in Hx.
  - simpl. destruct (forallb in_data_model ys) eqn:Hys.
    + eexists. by apply get_property_single_value_spec.
    + by apply get_property_single_value_raises.
  - discriminate Htag.
  - unfold tagged, PsetDef.is_a in Htag. simpl in Htag.
    apply andb_true_iff in Hx as [Hx _]. apply negb_true_iff in Hx. congruence.
Qed.

(** X8.  On an element of the schema the only way [get_all_pset_data] and
    [get_all_instance_data] can fail is the read of [NominalValue] in a
    Complex Property: they return when every reached property set is of
    the data model, and raise that [AttributeError] otherwise; a
    definition of another kind is never handed to the property
    flattener. *)
Theorem pset_data_raises_exactly (e : IfcObject) :
  schema_element e = true ->
  (forallb flattenable (defined_by_properties e) = true ->
     (exists m, get_all_pset_data e = Ok m)
     /\ (exists r, get_all_instance_data e = Ok r))
  /\ (forallb flattenable (defined_by_properties e) = false ->
       get_all_pset_data e = Raise (AttributeError "NominalValue")
       /\ get_all_instance_data e = Raise (AttributeError "NominalValue")).
Proof.
  intros He.
  assert (Hsets : Forall
    (fun x => (exists m, get_property_single_value x = Ok m)
              \/ get_property_single_value x
                 = Raise (AttributeError "NominalValue"))
    (filter (tagged "IfcPropertySet") (defined_by_properties e))).
  { apply Forall_forall. intros x Hx.
    apply list_elem_of_filter in Hx as [Htag Hx].
    pose proof (schema_property_set_outcome x
                  (elem_of_schema_element e x He Hx) Htag) as Hout.
    destruct (flattenable x); [by left | by right]. }
  split.
  - intros Hflat.
    assert (Hp : exists m, get_all_pset_data e = Ok m).
    { unfold get_all_pset_data. rewrite get_related_property_sets_eq, bind_Ok.
      apply merge_loop_total. apply Forall_forall. intros x Hx.
      apply list_elem_of_filter in Hx as [Htag Hx].
      pose proof (schema_property_set_outcome x
                    (elem_of_schema_element e x He Hx) Htag) as Hout.
      by rewrite (forallb_elem_of _ _ _ Hflat Hx) in Hout. }
    split; [exact Hp|]. destruct Hp as [p Hp].
    destruct (get_all_quantity_data_total e He) as [q Hq].
    destruct (get_all_type_data_total e He) as [t Ht].
    rewrite get_all_instance_data_eq, Hp, Hq, Ht. by eexists.
  - intros Hflat.
    assert (Hp : get_all_pset_data e = Raise (AttributeError "NominalValue")).
    { unfold get_all_pset_data. rewrite get_related_property_sets_eq, bind_Ok.
      apply merge_loop_raises; [exact Hsets|].
      apply Exists_exists.
      assert (Hex : exists x, x ∈ defined_by_properties e
                              /\ flattenable x = false).
      { revert Hflat. generalize (defined_by_properties e) as l.
        induction l as [|x l IH]; [discriminate|]. simpl.
        destruct (flattenable x) eqn:Hx; simpl.
        - intros Hl. destruct (IH Hl) as (x' & Hx' & Hf).
          exists x'. split; [by right | done].
        - intros _. exists x. split; [by left | done]. }
      destruct Hex as (x & Hx & Hf). exists x.
      pose proof (elem_of_schema_element e x He Hx) as Hschema.
      destruct x as [n ys|n ys|c n]; try discriminate.
      + split; [by apply list_elem_of_filter|].
        by apply get_property_single_value_raises.
      + simpl in Hschema, Hf. apply andb_true_iff in Hschema as [Hc _].
        apply negb_false_iff in Hf. apply negb_true_iff in Hc. congruence. }
    split; [exact Hp|]. by rewrite get_all_instance_data_eq, Hp.
Qed.

Lemma pset_data_raises_exactly_witness :
  (exists m, get_all_pset_data SampleWall = Ok m)
  /\ get_all_instance_data NestedElement
     = Raise (AttributeError "NominalValue").
Proof.
  split.
  - apply (proj1 (pset_data_raises_exactly SampleWall eq_refl) eq_refl).
  - apply (proj2 (pset_data_raises_exactly NestedElement eq_refl) eq_refl).
Defined.

(** ** Records that write nothing *)

Lemma for_each_app {A S : Type} (body : S -> A -> result S) (s : S)
    (xs ys : list A) :
  for_each body s (xs ++ ys)
  = (for_each body s xs ≫= fun s' => for_each body s' ys).
Proof.
  revert s. induction xs as [|x xs IH]; intros s; simpl; [done|].
  destruct (body s x) as [s'|e]; simpl; [apply IH | done].
Qed.

Lemma complex_loop_null (x : IfcPropertySetDefinition)
    (zs : list IfcProperty) (d : dict) :
  forallb null_single_value zs = true ->
  for_each (complex_body x) d zs = Ok d.
Proof.
  induction zs as [|z zs IH]; intros Hzs; [done|].
  simpl in Hzs. apply andb_true_iff in Hzs as [Hz Hzs].
  destruct z as [n [w|]| |]; try discriminate. simpl. by apply IH.
Qed.

Lemma property_body_inert (x : IfcPropertySetDefinition) (y : IfcProperty)
    (d : dict) :
  inert_property y = true -> property_body x d y = Ok d.
Proof.
  intros Hy. destruct y as [n [w|]|n zs|c n]; try discriminate.
  - reflexivity.
  - unfold property_body. simpl. by apply complex_loop_null.
  - simpl in Hy. apply andb_true_iff in Hy as [H1 H2].
    apply negb_true_iff in H1, H2.
    unfold property_body, Property.is_a. simpl. by rewrite H1, H2.
Qed.

(** X7.  A record that writes nothing can be removed from a property set
    without changing the outcome of the flattener, be it a dictionary or
    an exception, whatever the other records of the set are: this holds
    for a Single Value without a value, for a record of a class other than
    Single Value and Complex Property, and for a Complex Property that
    holds only Single Values without a value. *)
Theorem inert_records_are_skipped (name : option string) (y : IfcProperty)
    (l1 l2 : list IfcProperty) :
  inert_property y = true ->
  get_property_single_value (IfcPropertySet name (l1 ++ y :: l2))
  = get_property_single_value (IfcPropertySet name (l1 ++ l2)).
Proof.
  intros Hy. unfold get_property_single_value. simpl.
  change (property_body (IfcPropertySet name (l1 ++ y :: l2)))
    with (property_body (IfcPropertySet name (l1 ++ l2))).
  rewrite !for_each_app.
  destruct (for_each _ ∅ l1) as [d|e]; [|done].
  simpl. by rewrite property_body_inert.
Qed.

Lemma inert_records_are_skipped_witness :
  get_property_single_value
    (IfcPropertySet (Some "Pset_Nested")
       [ IfcPropertyOther "IfcPropertyEnumeratedValue" (Some "Status");
         IfcComplexProperty (Some "Complex1")
           [ IfcComplexProperty (Some "Complex2") [] ] ])
  = get_property_single_value
      (IfcPropertySet (Some "Pset_Nested")
         [ IfcComplexProperty (Some "Complex1")
             [ IfcComplexProperty (Some "Complex2") [] ] ]).
Proof.
  apply (inert_records_are_skipped (Some "Pset_Nested")
           (IfcPropertyOther "IfcPropertyEnumeratedValue" (Some "Status")) []).
  reflexivity.
Defined.

(** ** The shape of the type flattener's result *)

Lemma type_comprehension_shape (x : IfcTypeObject)
    (ys : list entity_instance) (d d' : dict) (o : option exn) :
  type_comprehension x d ys = (d', o) ->
  d' = d
  \/ exists tn dset n,
       type_Name x = Some tn /\ SetDefinition dset ∈ ys
       /\ PsetDef.Name dset = Some n
       /\ d' = <[type_key tn := PStr n]> d.
Proof.
  revert d. induction ys as [|y ys IH]; intros d; simpl.
  - intros. simplify_eq. by left.
  - destruct y as [ds|c]; simpl; [|intros; simplify_eq; by left].
    destruct (PsetDef.Name ds) as [yn|] eqn:Hyn.
    + destruct (type_Name x) as [tn|] eqn:Hx; simpl;
        [|intros; simplify_eq; by left].
      intros Hc. right. exists tn.
      apply IH in Hc as [->|(tn' & dset & n & Htn & Hin & Hn & ->)].
      * exists ds, yn. split; [done|]. split; [by left|]. done.
      * exists dset, n. simplify_eq. split; [done|]. split; [by right|].
        split; [done|]. unfold update1. apply insert_insert_eq.
    + intros Hc. apply IH in Hc as [->|(tn & dset & n & Htn & Hin & Hn & ->)];
        [by left|].
      right. exists tn, dset, n. split; [done|]. split; [by right|]. done.
Qed.

Lemma get_type_single_value_Ok (x : IfcTypeObject) (d : dict)
    (out : list string) :
  get_type_single_value x = Ok (d, out) ->
  (d = ∅ /\ out = [])
  \/ exists ys o,
       HasPropertySets x = Some ys
       /\ type_comprehension x ∅ ys = (d, o)
       /\ (out = []
           \/ exists g, GlobalId x = Some g /\ out = [type_exception_line g]).
Proof.
  unfold get_type_single_value.
  destruct (HasPropertySets x) as [[|y ys]|] eqn:Hys;
    [change (truthy (Some [])) with false; cbv iota; intros; simplify_eq;
       by left
    | | change (truthy None) with false; cbv iota; intros; simplify_eq;
       by left].
  change (truthy (Some (y :: ys))) with true.
  change (default [] (Some (y :: ys))) with (y :: ys). cbv iota.
  destruct (type_comprehension x ∅ (y :: ys)) as [d' [err|]] eqn:Hc.
  - destruct (GlobalId x) as [g|] eqn:Hg; simpl; [|done].
    intros. simplify_eq. right. exists (y :: ys), (Some err).
    split; [done|]. split; [done|]. right. by exists g.
  - intros. simplify_eq. right. exists (y :: ys), None.
    split; [done|]. split; [done|]. by left.
Qed.

Lemma get_type_single_value_Raise (x : IfcTypeObject) (err : exn) :
  get_type_single_value x = Raise err -> err = TypeError /\ GlobalId x = None.
Proof.
  unfold get_type_single_value.
  destruct (truthy (HasPropertySets x)); [|done].
  destruct (type_comprehension x ∅ _) as [d [e|]]; [|done].
  destruct (GlobalId x) as [g|]; simpl; [done|].
  intros. by simplify_eq.
Qed.

Lemma get_type_single_value_entry (x : IfcTypeObject) (d : dict)
    (out : list string) (k : key) (v : pyval) :
  get_type_single_value x = Ok (d, out) ->
  d !! k = Some v ->
  exists tn ys dset n,
    type_Name x = Some tn /\ HasPropertySets x = Some ys
    /\ SetDefinition dset ∈ ys /\ PsetDef.Name dset = Some n
    /\ k = type_key tn /\ v = PStr n.
Proof.
  intros Hx.
  destruct (get_type_single_value_Ok x d out Hx)
    as [[-> _]|(ys & o & Hys & Hc & _)]; [by rewrite lookup_empty|].
  apply type_comprehension_shape in Hc
    as [->|(tn & dset & n & Htn & Hin & Hn & ->)]; [by rewrite lookup_empty|].
  rewrite insert_empty. intros Hk.
  apply lookup_singleton_Some in Hk as [<- <-]. by exists tn, ys, dset, n.
Qed.

Lemma get_type_single_value_size (x : IfcTypeObject) (d : dict)
    (out : list string) :
  get_type_single_value x = Ok (d, out) ->
  d = ∅ \/ exists k v, d = {[ k := v ]}.
Proof.
  intros Hx.
  destruct (get_type_single_value_Ok x d out Hx)
    as [[-> _]|(ys & o & Hys & Hc & _)]; [by left|].
  apply type_comprehension_shape in Hc
    as [->|(tn & dset & n & Htn & Hin & Hn & ->)]; [by left|].
  right. eexists _, _. by rewrite insert_empty.
Qed.

(** X9.  Whatever the Element Type, when the type flattener returns, its
    dictionary has at most one entry and it has printed at most one line,
    the one that carries the type's global identifier; an entry of the
    dictionary has the key ["TypeDefinition_" + the type's name] and as
    value the name of one of the type's nested property sets.  When it
    raises instead, the exception is the [TypeError] of a type without a
    global identifier. *)
Theorem type_flattener_result_shape (x : IfcTypeObject) :
  match get_type_single_value x with
  | Ok (d, out) =>
      (size d <= 1)%nat
      /\ (out = []
          \/ exists g, GlobalId x = Some g /\ out = [type_exception_line g])
      /\ (forall k v,
            d !! k = Some v ->
            exists tn ys dset n,
              type_Name x = Some tn /\ HasPropertySets x = Some ys
              /\ SetDefinition dset ∈ ys /\ PsetDef.Name dset = Some n
              /\ k = str_key ("TypeDefinition_" +:+ tn) /\ v = PStr n)
  | Raise err => err = TypeError /\ GlobalId x = None
  end.
Proof.
  destruct (get_type_single_value x) as [[d out]|err] eqn:Hx;
    [|by apply get_type_single_value_Raise].
  split; [|split].
  - destruct (get_type_single_value_size x d out Hx) as [->|(k & v & ->)].
    + rewrite map_size_empty. lia.
    + by rewrite map_size_singleton.
  - destruct (get_type_single_value_Ok x d out Hx)
      as [[_ ->]|(ys & o & _ & _ & Hout)]; [by left | done].
  - intros k v. by apply (get_type_single_value_entry x d out).
Qed.

(** ** The shapes of the keys *)

Lemma for_each_invariant {A S : Type} (P : S -> Prop)
    (body : S -> A -> result S) :
  (forall s x s', P s -> body s x = Ok s' -> P s') ->
  forall xs s s', P s -> for_each body s xs = Ok s' -> P s'.
Proof.
  intros Hbody xs. induction xs as [|x xs IH]; intros s s' Hs; simpl.
  - intros. by simplify_eq.
  - destruct (body s x) as [s1|e] eqn:Hx; simpl; [|done].
    apply IH. by apply (Hbody s x).
Qed.

Lemma tuple_keyed_empty : tuple_keyed ∅.
Proof. intros k [v Hk]. by rewrite lookup_empty in Hk. Qed.

Lemma tuple_keyed_update1 (a b : option string) (v : pyval) (d : dict) :
  tuple_keyed d -> tuple_keyed (update1 (tuple_key a b) v d).
Proof.
  intros Hd k [v' Hk]. unfold update1 in Hk.
  destruct (decide (tuple_key a b = k)) as [<-|Hne]; [by exists a, b|].
  rewrite lookup_insert_ne in Hk by done. by apply Hd.
Qed.

Lemma tuple_keyed_update (m d : dict) :
  tuple_keyed m -> tuple_keyed d -> tuple_keyed (update m d).
Proof.
  intros Hm Hd k [v Hk]. unfold update in Hk.
  apply lookup_union_Some_raw in Hk as [Hk|[_ Hk]]; [apply Hm | apply Hd];
    by eexists.
Qed.

Lemma str_keyed_update (m d : dict) :
  str_keyed m -> str_keyed d -> str_keyed (update m d).
Proof.
  intros Hm Hd k [v Hk]. unfold update in Hk.
  apply lookup_union_Some_raw in Hk as [Hk|[_ Hk]]; [apply Hm | apply Hd];
    by eexists.
Qed.

Lemma complex_body_tuple_keyed (x : IfcPropertySetDefinition) (d d' : dict)
    (z : IfcProperty) :
  tuple_keyed d -> complex_body x d z = Ok d' -> tuple_keyed d'.
Proof.
  intros Hd. unfold complex_body.
  destruct (Property.NominalValue z) as [[w|]|e]; simpl; intros; simplify_eq;
    [by apply tuple_keyed_update1 | done].
Qed.

Lemma property_body_tuple_keyed (x : IfcPropertySetDefinition) (d d' : dict)
    (y : IfcProperty) :
  tuple_keyed d -> property_body x d y = Ok d' -> tuple_keyed d'.
Proof.
  intros Hd. unfold property_body.
  assert (H1 : forall d1,
    (if Property.is_a y "IfcPropertySingleValue"
     then nv ← Property.NominalValue y;
          match nv with
          | Some w =>
              Ok (update1 (tuple_key (PsetDef.Name x) (Property.Name y))
                    (wrappedValue w) d)
          | None => Ok d
          end
     else Ok d) = Ok d1 -> tuple_keyed d1).
  { intros d1. destruct (Property.is_a y "IfcPropertySingleValue");
      [|intros; by simplify_eq].
    destruct (Property.NominalValue y) as [[w|]|e]; simpl; intros; simplify_eq;
      [by apply tuple_keyed_update1 | done]. }
  destruct (if Property.is_a y "IfcPropertySingleValue" then _ else _)
    as [d1|e]; simpl; [|done].
  specialize (H1 d1 eq_refl).
  destruct (Property.is_a y "IfcComplexProperty"); [|intros; by simplify_eq].
  destruct (Property.HasProperties y) as [zs|e]; simpl; [|done].
  apply for_each_invariant; [|done].
  intros s z s'. apply complex_body_tuple_keyed.
Qed.

Lemma quantity_step_tuple_keyed (b : bool) (r : result pyval)
    (a n : option string) (d d' : dict) :
  tuple_keyed d ->
  (if b then v ← r; Ok (update1 (tuple_key a n) v d) else Ok d) = Ok d' ->
  tuple_keyed d'.
Proof.
  intros Hd. destruct b; [|intros; by simplify_eq].
  destruct r as [v|e]; simpl; intros; simplify_eq.
  by apply tuple_keyed_update1.
Qed.

Lemma quantity_body_tuple_keyed (x : IfcPropertySetDefinition) (d d' : dict)
    (y : IfcPhysicalQuantity) :
  tuple_keyed d -> quantity_body x d y = Ok d' -> tuple_keyed d'.
Proof.
  intros Hd. unfold quantity_body. cbv zeta.
  destruct (if Quantity.is_a y "IfcQuantityArea" then _ else _)
    as [d1|e] eqn:H1; simpl; [|done].
  apply quantity_step_tuple_keyed in H1; [|done].
  destruct (if Quantity.is_a y "IfcQuantityLength" then _ else _)
    as [d2|e] eqn:H2; simpl; [|done].
  apply quantity_step_tuple_keyed in H2; [|done].
  destruct (if Quantity.is_a y "IfcQuantityVolume" then _ else _)
    as [d3|e] eqn:H3; simpl; [|done].
  apply quantity_step_tuple_keyed in H3; [|done].
  destruct (if Quantity.is_a y "IfcQuantityCount" then _ else _)
    as [d4|e] eqn:H4; simpl; [|done].
  apply quantity_step_tuple_keyed in H4; [|done].
  by apply quantity_step_tuple_keyed.
Qed.

Lemma get_property_single_value_tuple_keyed (x : IfcPropertySetDefinition)
    (m : dict) :
  get_property_single_value x = Ok m -> tuple_keyed m.
Proof.
  unfold get_property_single_value.
  destruct (PsetDef.HasProperties x) as [ys|e]; simpl; [|done].
  apply for_each_invariant; [|apply tuple_keyed_empty].
  intros s y s'. apply property_body_tuple_keyed.
Qed.

Lemma get_quantity_single_value_tuple_keyed (x : IfcPropertySetDefinition)
    (m : dict) :
  get_quantity_single_value x = Ok m -> tuple_keyed m.
Proof.
  unfold get_quantity_single_value.
  destruct (PsetDef.Quantities x) as [ys|e]; simpl; [|done].
  apply for_each_invariant; [|apply tuple_keyed_empty].
  intros s y s'. apply quantity_body_tuple_keyed.
Qed.

Lemma merge_loop_tuple_keyed {A : Type} (f : A -> result dict)
    (xs : list A) (m : dict) :
  (forall x r, f x = Ok r -> tuple_keyed r) ->
  for_each (fun pset_dict x => r ← f x; Ok (update r pset_dict)) ∅ xs = Ok m ->
  tuple_keyed m.
Proof.
  intros Hf. apply for_each_invariant; [|apply tuple_keyed_empty].
  intros s x s' Hs. destruct (f x) as [r|e] eqn:Hx; simpl; [|done].
  intros. simplify_eq. apply tuple_keyed_update; [by apply (Hf x)|done].
Qed.

Lemma get_type_single_value_str_keyed (x : IfcTypeObject) (m : dict)
    (printed : list string) :
  get_type_single_value x = Ok (m, printed) -> str_keyed m.
Proof.
  intros Hx k [v Hk].
  destruct (get_type_single_value_entry x m printed k v Hx Hk)
    as (tn & _ & _ & _ & _ & _ & _ & _ & -> & _).
  by eexists.
Qed.

Lemma type_loop_str_keyed (xs : list IfcTypeObject)
    (acc r : dict * list string) :
  str_keyed acc.1 -> type_loop acc xs = Ok r -> str_keyed r.1.
Proof.
  unfold type_loop.
  apply (for_each_invariant (fun s : dict * list string => str_keyed s.1)).
  intros s x s' Hs. unfold type_step.
  destruct (get_type_single_value x) as [[m printed]|err] eqn:Hx; [|done].
  rewrite bind_Ok. intros. simplify_eq. cbn [fst].
  apply str_keyed_update; [|done].
  by apply (get_type_single_value_str_keyed x m printed).
Qed.

Lemma get_all_pset_data_flattenable (e : IfcObject) :
  forallb flattenable (defined_by_properties e) = true ->
  get_all_pset_data e
  = Ok (apply_updates
          (filter (tagged "IfcPropertySet") (defined_by_properties e)
             ≫= property_set_emissions) ∅).
Proof.
  intros He. unfold get_all_pset_data.
  rewrite get_related_property_sets_eq, bind_Ok.
  apply merge_loop_emissions. apply Forall_forall. intros x Hx.
  apply list_elem_of_filter in Hx as [Htag Hx].
  apply flattenable_property_set; [|done].
  by apply (forallb_elem_of _ _ _ He).
Qed.

(** X6.  The property and quantity data have tuples as keys and the type
    data has strings, so in [get_all_instance_data] the type entries and
    the property and quantity entries never overwrite one another: when
    the three category extractors return [p], [q] and [t], the instance
    data returns their merge, in which a tuple key is looked up in the
    merge of [q] and [p] alone, a string key in [t] alone, and whose size
    is the sum of the two sizes. *)
Theorem categories_use_separate_keys (e : IfcObject) (p q t : dict)
    (out : list string) :
  get_all_pset_data e = Ok p ->
  get_all_quantity_data e = Ok q ->
  get_all_type_data e = Ok (t, out) ->
  tuple_keyed p /\ tuple_keyed q /\ str_keyed t
  /\ get_all_instance_data e = Ok (merge_categories p q t, out)
  /\ (forall a b,
        merge_categories p q t !! tuple_key a b = update q p !! tuple_key a b)
  /\ (forall s, merge_categories p q t !! str_key s = t !! str_key s)
  /\ size (merge_categories p q t) = (size t + size (update q p))%nat.
Proof.
  intros Hp Hq Ht.
  assert (Kp : tuple_keyed p).
  { unfold get_all_pset_data in Hp.
    rewrite get_related_property_sets_eq, bind_Ok in Hp.
    apply (merge_loop_tuple_keyed _ _ _
             get_property_single_value_tuple_keyed Hp). }
  assert (Kq : tuple_keyed q).
  { unfold get_all_quantity_data in Hq.
    rewrite get_related_quantities_eq, bind_Ok in Hq.
    apply (merge_loop_tuple_keyed _ _ _
             get_quantity_single_value_tuple_keyed Hq). }
  assert (Kt : str_keyed t).
  { unfold get_all_type_data in Ht.
    rewrite get_related_type_definition_eq, bind_Ok in Ht.
    apply (type_loop_str_keyed _ _ _ (fun k Hk =>
             match lookup_empty_is_Some (M := gmap key) k Hk with end) Ht). }
  assert (Kqp : tuple_keyed (update q p)) by by apply tuple_keyed_update.
  split; [done|]. split; [done|]. split; [done|].
  split; [by rewrite get_all_instance_data_eq, Hp, Hq, Ht|].
  unfold merge_categories. split; [|split].
  - intros a b. unfold update at 1. rewrite lookup_union.
    destruct (t !! tuple_key a b) as [v|] eqn:Hk.
    + destruct (Kt (tuple_key a b)) as [s Hs]; [by eexists | discriminate Hs].
    + by rewrite (left_id_L None _).
  - intros s. unfold update at 1. rewrite lookup_union.
    destruct (update q p !! str_key s) as [v|] eqn:Hk.
    + destruct (Kqp (str_key s)) as (a & b & Hs); [by eexists | discriminate Hs].
    + by rewrite (right_id_L None _).
  - unfold update at 1. apply map_size_disj_union.
    apply map_disjoint_spec. intros k v1 v2 H1 H2.
    destruct (Kt k) as [s ->]; [by eexists|].
    destruct (Kqp (str_key s)) as (a & b & Hs); [by eexists | discriminate Hs].
Qed.

Lemma categories_use_separate_keys_witness :
  exists (p q t : dict) (out : list string),
    get_all_instance_data SampleWall = Ok (merge_categories p q t, out)
    /\ size (merge_categories p q t) = (size t + size (update q p))%nat.
Proof.
  destruct (get_all_quantity_data_total SampleWall eq_refl) as [q Hq].
  destruct (get_all_type_data_total SampleWall eq_refl) as [[t out] Ht].
  pose proof (get_all_pset_data_flattenable SampleWall eq_refl) as Hp.
  eexists _, q, t, out.
  destruct (categories_use_separate_keys SampleWall _ q t out Hp Hq Ht)
    as (_ & _ & _ & Hi & _ & _ & Hsize).
  by split.
Defined.

(** ** Types that are well formed *)

Lemma well_formed_entries (ys : list entity_instance) :
  forallb is_set_definition ys = true -> ys = SetDefinition <$> entry_sets ys.
Proof.
  induction ys as [|y ys IH]; [done|]. simpl.
  intros Hys. apply andb_true_iff in Hys as [Hy Hys].
  destruct y as [d|c]; [|discriminate]. unfold entry_sets in *. simpl.
  f_equal. by apply IH.
Qed.

Lemma get_type_single_value_well_formed (x : IfcTypeObject) :
  well_formed_type x = true ->
  get_type_single_value x = Ok (apply_updates (type_emission x) ∅, []).
Proof.
  unfold well_formed_type, type_emission.
  destruct x as [g [tn|] hs]; simpl; [|discriminate].
  intros Hys.
  assert (Hhs : hs = set_entries (entry_sets <$> hs)).
  { destruct hs as [ys|]; simpl in *; [|done].
    f_equal. by apply well_formed_entries. }
  rewrite Hhs at 1. rewrite get_type_single_value_named.
  rewrite apply_updates_same_key.
  assert (Hd : default [] (entry_sets <$> hs) = entry_sets (default [] hs))
    by by destruct hs.
  rewrite Hd. by destruct (last _).
Qed.

Lemma type_loop_emissions (em : IfcTypeObject -> list (key * pyval))
    (xs : list IfcTypeObject) :
  Forall (fun x => get_type_single_value x
                   = Ok (apply_updates (em x) ∅, [])) xs ->
  forall d out,
    type_loop (d, out) xs = Ok (apply_updates (xs ≫= em) d, out).
Proof.
  unfold type_loop. induction 1 as [|x xs Hx _ IH]; intros d out; [done|].
  rewrite bind_cons, apply_updates_app. cbn [for_each].
  rewrite (type_step_Ok _ _ _ _ Hx), bind_Ok. cbn [fst snd].
  by rewrite IH, app_nil_r, <- apply_updates_union.
Qed.

(** X10.  On an element whose types are all well formed (named, with
    property set definitions as nested entries) [get_all_type_data]
    prints nothing and returns the dictionary obtained by applying, in
    relationship order, one update per type that has a named nested set:
    the key of the type mapped to the name of its last named nested set.
    Between two types of the same name the later one wins. *)
Theorem type_data_of_well_formed_types (e : IfcObject) :
  forallb well_formed_type (defined_by_type e) = true ->
  get_all_type_data e
  = Ok (apply_updates (defined_by_type e ≫= type_emission) ∅, [])
  /\ (forall ts1 x ts2 tn n,
        defined_by_type e = ts1 ++ x :: ts2 ->
        type_emission x = [(type_key tn, PStr n)] ->
        type_key tn ∉ (ts2 ≫= type_emission).*1 ->
        exists t, get_all_type_data e = Ok (t, [])
                  /\ t !! type_key tn = Some (PStr n)).
Proof.
  intros He.
  assert (Ht : get_all_type_data e
    = Ok (apply_updates (defined_by_type e ≫= type_emission) ∅, [])).
  { unfold get_all_type_data. rewrite get_related_type_definition_eq, bind_Ok.
    f_equal. apply type_loop_emissions. apply Forall_forall. intros x Hx.
    apply get_type_single_value_well_formed.
    by apply (forallb_elem_of _ _ _ He). }
  split; [exact Ht|].
  intros ts1 x ts2 tn n Hts Hx Hlast. eexists. split; [exact Ht|].
  rewrite Hts, bind_app, bind_cons, Hx. simpl.
  by apply lookup_apply_updates_last.
Qed.

Lemma type_data_of_well_formed_types_witness :
  exists t : dict,
    get_all_type_data SampleWall = Ok (t, [])
    /\ t !! str_key "TypeDefinition_WallType1" = Some (PStr "Pset_B").
Proof.
  apply (proj2 (type_data_of_well_formed_types SampleWall eq_refl)
           [] WallType1 [] "WallType1" "Pset_B" eq_refl eq_refl).
  not_in_list.
Defined.

(** ** Sets whose records have distinct names *)

Lemma lookup_apply_updates_NoDup (es : list (key * pyval)) (k : key)
    (v : pyval) :
  NoDup es.*1 -> apply_updates es ∅ !! k = Some v <-> (k, v) ∈ es.
Proof.
  intros Hnd. split.
  - intros Hk. apply lookup_apply_updates_Some in Hk as [Hk|Hk]; [done|].
    by rewrite lookup_empty in Hk.
  - intros Hin. apply list_elem_of_split in Hin as (l1 & l2 & ->).
    apply lookup_apply_updates_last.
    rewrite fmap_app, fmap_cons in Hnd.
    apply NoDup_app in Hnd as (_ & _ & Hnd). by apply NoDup_cons in Hnd as [? _].
Qed.

Lemma size_apply_updates_le (es : list (key * pyval)) (d : dict) :
  (size (apply_updates es d) <= size d + length es)%nat.
Proof.
  revert d. induction es as [|[k v] es IH]; intros d; [simpl; lia|].
  rewrite apply_updates_cons. etrans; [apply IH|].
  unfold update1. simpl. rewrite map_size_insert.
  destruct (d !! k); unfold id; lia.
Qed.

Lemma size_apply_updates_NoDup (es : list (key * pyval)) (d : dict) :
  NoDup es.*1 -> (forall k, k ∈ es.*1 -> d !! k = None) ->
  size (apply_updates es d) = (size d + length es)%nat.
Proof.
  revert d. induction es as [|[k v] es IH]; intros d Hnd Hfresh; [simpl; lia|].
  rewrite fmap_cons in Hnd. apply NoDup_cons in Hnd as [Hk Hnd].
  rewrite apply_updates_cons, IH; [|done|].
  - unfold update1. simpl. rewrite map_size_insert_None; [lia|].
    apply Hfresh. by left.
  - intros k' Hk'. unfold update1. simpl. rewrite lookup_insert_ne.
    + apply Hfresh. by right.
    + intros ->. done.
Qed.

Lemma apply_updates_Permutation (es es' : list (key * pyval)) :
  NoDup es.*1 -> es ≡ₚ es' -> apply_updates es ∅ = apply_updates es' ∅.
Proof.
  intros Hnd Hperm. apply map_eq. intros k. apply option_eq. intros v.
  assert (Hnd' : NoDup es'.*1) by by rewrite <- Hperm.
  rewrite !lookup_apply_updates_NoDup by done. by rewrite Hperm.
Qed.

Lemma forallb_Permutation {A : Type} (f : A -> bool) (l l' : list A) :
  l ≡ₚ l' -> forallb f l = true -> forallb f l' = true.
Proof.
  intros Hperm Hl. apply forallb_forall. intros x Hx.
  apply list_elem_of_In in Hx. rewrite <- Hperm in Hx.
  by apply (forallb_elem_of f l).
Qed.

(** X11.  When the records of a quantity set that belong to the five
    variants have pairwise distinct names (no key is emitted twice), the
    dictionary of the quantity flattener holds exactly the emitted
    entries: a key is mapped to a value if and only if a record emits that
    pair, the number of entries is the number of emitting records, and the
    dictionary does not depend on the order of the records. *)
Theorem distinct_quantities_flatten_exactly (name : option string)
    (ys : list IfcPhysicalQuantity) :
  forallb schema_quantity ys = true ->
  NoDup (ys ≫= quantity_emission name).*1 ->
  exists m : dict,
    get_quantity_single_value (IfcElementQuantity name ys) = Ok m
    /\ (forall k v, m !! k = Some v <-> (k, v) ∈ ys ≫= quantity_emission name)
    /\ size m = length (ys ≫= quantity_emission name)
    /\ (forall ys', ys ≡ₚ ys' ->
          get_quantity_single_value (IfcElementQuantity name ys') = Ok m).
Proof.
  intros Hys Hnd. eexists. split; [by apply get_quantity_single_value_spec|].
  split; [|split].
  - intros k v. by apply lookup_apply_updates_NoDup.
  - rewrite size_apply_updates_NoDup; [by rewrite map_size_empty|done|].
    intros k _. apply lookup_empty.
  - intros ys' Hperm.
    rewrite get_quantity_single_value_spec
      by by apply (forallb_Permutation _ ys).
    f_equal. symmetry. apply apply_updates_Permutation; [done|].
    by rewrite Hperm.
Qed.

Lemma distinct_quantities_flatten_exactly_witness :
  exists m : dict,
    get_quantity_single_value BaseQuantities = Ok m
    /\ size m = 3%nat
    /\ get_quantity_single_value
         (IfcElementQuantity (Some "BaseQuantities")
            [ IfcQuantityLength (Some "Height") PNone;
              IfcPhysicalQuantityOther "IfcQuantityTime" (Some "Duration");
              IfcQuantityCount (Some "Openings") (PInt 2);
              IfcQuantityArea (Some "NetArea") (PFloat (25 # 2)) ])
       = Ok m.
Proof.
  assert (Hnd : NoDup
    ([ IfcQuantityArea (Some "NetArea") (PFloat (25 # 2));
       IfcQuantityCount (Some "Openings") (PInt 2);
       IfcQuantityLength (Some "Height") PNone;
       IfcPhysicalQuantityOther "IfcQuantityTime" (Some "Duration") ]
       ≫= quantity_emission (Some "BaseQuantities")).*1).
  { simpl. repeat (apply NoDup_cons; split; [not_in_list|]). apply NoDup_nil_2. }
  destruct (distinct_quantities_flatten_exactly (Some "BaseQuantities")
    [ IfcQuantityArea (Some "NetArea") (PFloat (25 # 2));
      IfcQuantityCount (Some "Openings") (PInt 2);
      IfcQuantityLength (Some "Height") PNone;
      IfcPhysicalQuantityOther "IfcQuantityTime" (Some "Duration") ]
    eq_refl Hnd) as (m & Hm & _ & Hsize & Hperm).
  exists m. split; [exact Hm|]. split; [exact Hsize|].
  apply Hperm.
  etrans; [apply (Permutation_app_comm [_; _] [_; _])|]. simpl.
  do 2 apply perm_skip. apply perm_swap.
Defined.

(** X12.  When no key is emitted twice by the records of a property set
    of the data model, the dictionary of the property flattener holds
    exactly the emitted entries, has as many entries as there are emitting
    Single Values, and does not depend on the order of the records. *)
Theorem distinct_properties_flatten_exactly (name : option string)
    (ys : list IfcProperty) :
  forallb in_data_model ys = true ->
  NoDup (ys ≫= property_emissions name).*1 ->
  exists m : dict,
    get_property_single_value (IfcPropertySet name ys) = Ok m
    /\ (forall k v, m !! k = Some v <-> (k, v) ∈ ys ≫= property_emissions name)
    /\ size m = length (ys ≫= property_emissions name)
    /\ (forall ys', ys ≡ₚ ys' ->
          get_property_single_value (IfcPropertySet name ys') = Ok m).
Proof.
  intros Hys Hnd. eexists. split; [by apply get_property_single_value_spec|].
  split; [|split].
  - intros k v. by apply lookup_apply_updates_NoDup.
  - rewrite size_apply_updates_NoDup; [by rewrite map_size_empty|done|].
    intros k _. apply lookup_empty.
  - intros ys' Hperm.
    rewrite get_property_single_value_spec
      by by apply (forallb_Permutation _ ys).
    f_equal. symmetry. apply apply_updates_Permutation; [done|].
    by rewrite Hperm.
Qed.

Lemma distinct_properties_flatten_exactly_witness :
  exists m : dict,
    get_property_single_value Pset_Foo = Ok m /\ size m = 2%nat.
Proof.
  assert (Hnd : NoDup
    ([ IfcPropertySingleValue (Some "Bar") (Some (IfcInteger 5));
       IfcPropertySingleValue (Some "Baz") None;
       IfcComplexProperty (Some "Complex1")
         [ IfcPropertySingleValue (Some "Sub1") (Some (IfcInteger 3)) ] ]
       ≫= property_emissions (Some "Pset_Foo")).*1).
  { simpl. repeat (apply NoDup_cons; split; [not_in_list|]). apply NoDup_nil_2. }
  destruct (distinct_properties_flatten_exactly (Some "Pset_Foo")
    [ IfcPropertySingleValue (Some "Bar") (Some (IfcInteger 5));
      IfcPropertySingleValue (Some "Baz") None;
      IfcComplexProperty (Some "Complex1")
        [ IfcPropertySingleValue (Some "Sub1") (Some (IfcInteger 3)) ] ]
    eq_refl Hnd) as (m & Hm & _ & Hsize & _).
  exists m. by split.
Defined.

Lemma length_quantity_emissions (name : option string)
    (ys : list IfcPhysicalQuantity) :
  (length (ys ≫= quantity_emission name) <= length ys)%nat.
Proof.
  induction ys as [|y ys IH]; [done|].
  rewrite bind_cons, length_app. unfold quantity_emission at 1.
  destruct (matching_field y); simpl; lia.
Qed.

(** X13.  The dictionary of a quantity set never has more entries than
    the set has records, and appending records to the set never removes a
    key from it. *)
Theorem quantity_entries_are_bounded (name : option string)
    (ys ys' : list IfcPhysicalQuantity) :
  forallb schema_quantity (ys ++ ys') = true ->
  exists m m' : dict,
    get_quantity_single_value (IfcElementQuantity name ys) = Ok m
    /\ get_quantity_single_value (IfcElementQuantity name (ys ++ ys')) = Ok m'
    /\ (size m <= length ys)%nat
    /\ (forall k, is_Some (m !! k) -> is_Some (m' !! k)).
Proof.
  intros Hys. pose proof Hys as Hall.
  apply schema_quantity_app in Hys as [Hys Hys'].
  eexists _, _. split; [by apply get_quantity_single_value_spec|].
  split; [by apply get_quantity_single_value_spec|]. split.
  - etrans; [apply size_apply_updates_le|]. rewrite map_size_empty. simpl.
    apply length_quantity_emissions.
  - intros k [v Hk]. apply apply_updates_dom.
    apply lookup_apply_updates_Some in Hk as [Hk|Hk];
      [|by rewrite lookup_empty in Hk].
    rewrite bind_app, fmap_app. apply elem_of_app. left.
    apply list_elem_of_fmap. by exists (k, v).
Qed.

Lemma quantity_entries_are_bounded_witness :
  exists m : dict,
    get_quantity_single_value BaseQuantities = Ok m /\ (size m <= 4)%nat.
Proof.
  destruct (quantity_entries_are_bounded (Some "BaseQuantities")
    [ IfcQuantityArea (Some "NetArea") (PFloat (25 # 2));
      IfcQuantityCount (Some "Openings") (PInt 2);
      IfcQuantityLength (Some "Height") PNone;
      IfcPhysicalQuantityOther "IfcQuantityTime" (Some "Duration") ]
    [] eq_refl) as (m & m' & Hm & _ & Hsize & _).
  exists m. by split.
Defined.

(** ** Splicing and splitting sets *)

Lemma for_each_ext {A S : Type} (f g : S -> A -> result S) (xs : list A) :
  Forall (fun x => forall s, f s x = g s x) xs ->
  forall s, for_each f s xs = for_each g s xs.
Proof.
  induction 1 as [|x xs Hx _ IH]; intros s; simpl; [done|].
  rewrite Hx. destruct (g s x); simpl; [apply IH | done].
Qed.

Lemma property_body_single_value (x : IfcPropertySetDefinition)
    (z : IfcProperty) (d : dict) :
  is_single_value z = true -> property_body x d z = complex_body x d z.
Proof.
  destruct z as [n [w|]| |]; try discriminate; reflexivity.
Qed.

Lemma for_each_cons {A S : Type} (body : S -> A -> result S) (s : S)
    (x : A) (xs : list A) :
  for_each body s (x :: xs) = (body s x ≫= fun s' => for_each body s' xs).
Proof. reflexivity. Qed.

Lemma property_body_complex (x : IfcPropertySetDefinition)
    (cn : option string) (zs : list IfcProperty) (d : dict) :
  forallb is_single_value zs = true ->
  property_body x d (IfcComplexProperty cn zs)
  = for_each (property_body x) d zs.
Proof.
  intros Hzs. unfold property_body at 1. simpl.
  symmetry. apply for_each_ext. apply Forall_forall.
  intros z Hz s. apply property_body_single_value.
  by apply (forallb_elem_of _ zs).
Qed.

(** X14.  A Complex Property whose records are Single Values is
    flattened as if those records stood in its place in the property set:
    replacing it by its records does not change the outcome of the
    flattener, whatever the other records of the set are. *)
Theorem complex_property_is_spliced (name cn : option string)
    (zs l1 l2 : list IfcProperty) :
  forallb is_single_value zs = true ->
  get_property_single_value
    (IfcPropertySet name (l1 ++ IfcComplexProperty cn zs :: l2))
  = get_property_single_value (IfcPropertySet name (l1 ++ zs ++ l2)).
Proof.
  intros Hzs. unfold get_property_single_value. simpl.
  change (property_body (IfcPropertySet name (l1 ++ zs ++ l2)))
    with (property_body (IfcPropertySet name (l1 ++ IfcComplexProperty cn zs :: l2))).
  rewrite !for_each_app.
  destruct (for_each _ ∅ l1) as [d|e]; [|done].
  rewrite !bind_Ok, for_each_cons, for_each_app.
  by rewrite property_body_complex.
Qed.

Lemma complex_property_is_spliced_witness :
  get_property_single_value Pset_Foo
  = get_property_single_value
      (IfcPropertySet (Some "Pset_Foo")
         [ IfcPropertySingleValue (Some "Bar") (Some (IfcInteger 5));
           IfcPropertySingleValue (Some "Baz") None;
           IfcPropertySingleValue (Some "Sub1") (Some (IfcInteger 3)) ]).
Proof.
  apply (complex_property_is_spliced (Some "Pset_Foo") (Some "Complex1")
           [ IfcPropertySingleValue (Some "Sub1") (Some (IfcInteger 3)) ]
           [ IfcPropertySingleValue (Some "Bar") (Some (IfcInteger 5));
             IfcPropertySingleValue (Some "Baz") None ]
           []).
  reflexivity.
Defined.

(** X15.  Flattening the concatenation of two record lists of the data
    model gives the dictionary of the first updated with the dictionary
    of the second; hence an element defined by two property sets of one
    name has the property data of an element defined by the single set
    that holds the records of both. *)
Theorem property_sets_concatenate (name : option string)
    (ys1 ys2 : list IfcProperty) :
  forallb in_data_model ys1 = true ->
  forallb in_data_model ys2 = true ->
  (exists m1 m2 : dict,
     get_property_single_value (IfcPropertySet name ys1) = Ok m1
     /\ get_property_single_value (IfcPropertySet name ys2) = Ok m2
     /\ get_property_single_value (IfcPropertySet name (ys1 ++ ys2))
        = Ok (update m2 m1))
  /\ get_all_pset_data
       (element_of [ IfcRelDefinesByProperties (IfcPropertySet name ys1);
                     IfcRelDefinesByProperties (IfcPropertySet name ys2) ])
     = get_all_pset_data
         (element_of
            [ IfcRelDefinesByProperties (IfcPropertySet name (ys1 ++ ys2)) ]).
Proof.
  intros H1 H2.
  assert (H12 : forallb in_data_model (ys1 ++ ys2) = true)
    by by apply in_data_model_app.
  split.
  - eexists _, _.
    split; [by apply get_property_single_value_spec|].
    split; [by apply get_property_single_value_spec|].
    rewrite get_property_single_value_spec by done.
    by rewrite bind_app, apply_updates_app, <- apply_updates_union.
  - rewrite !get_all_pset_data_flattenable.
    + f_equal. unfold element_of, defined_by_properties. simpl.
      by rewrite bind_app, !app_nil_r.
    + unfold element_of, defined_by_properties. simpl. by rewrite H12.
    + unfold element_of, defined_by_properties. simpl. by rewrite H1, H2.
Qed.

Lemma property_sets_concatenate_witness :
  get_all_pset_data
    (element_of
       [ IfcRelDefinesByProperties
           (IfcPropertySet (Some "Pset_Foo")
              [ IfcPropertySingleValue (Some "Bar") (Some (IfcInteger 5)) ]);
         IfcRelDefinesByProperties
           (IfcPropertySet (Some "Pset_Foo")
              [ IfcPropertySingleValue (Some "Bar") (Some (IfcInteger 7)) ]) ])
  = get_all_pset_data
      (element_of
         [ IfcRelDefinesByProperties
             (IfcPropertySet (Some "Pset_Foo")
                [ IfcPropertySingleValue (Some "Bar") (Some (IfcInteger 5));
                  IfcPropertySingleValue (Some "Bar") (Some (IfcInteger 7)) ]) ]).
Proof.
  apply (proj2 (property_sets_concatenate (Some "Pset_Foo")
                  [ IfcPropertySingleValue (Some "Bar") (Some (IfcInteger 5)) ]
                  [ IfcPropertySingleValue (Some "Bar") (Some (IfcInteger 7)) ]
                  eq_refl eq_refl)).
Defined.

(** X16.  Flattening the concatenation of two record lists of a quantity
    set gives the dictionary of the first updated with the dictionary of
    the second; hence an element defined by two quantity sets of one name
    has the quantity data of an element defined by the single set that
    holds the records of both. *)
Theorem quantity_sets_concatenate (name : option string)
    (ys1 ys2 : list IfcPhysicalQuantity) :
  forallb schema_quantity ys1 = true ->
  forallb schema_quantity ys2 = true ->
  (exists m1 m2 : dict,
     get_quantity_single_value (IfcElementQuantity name ys1) = Ok m1
     /\ get_quantity_single_value (IfcElementQuantity name ys2) = Ok m2
     /\ get_quantity_single_value (IfcElementQuantity name (ys1 ++ ys2))
        = Ok (update m2 m1))
  /\ get_all_quantity_data
       (element_of [ IfcRelDefinesByProperties (IfcElementQuantity name ys1);
                     IfcRelDefinesByProperties (IfcElementQuantity name ys2) ])
     = get_all_quantity_data
         (element_of
            [ IfcRelDefinesByProperties (IfcElementQuantity name (ys1 ++ ys2)) ]).
Proof.
  intros H1 H2.
  assert (H12 : forallb schema_quantity (ys1 ++ ys2) = true)
    by by apply schema_quantity_app.
  split.
  - eexists _, _.
    split; [by apply get_quantity_single_value_spec|].
    split; [by apply get_quantity_single_value_spec|].
    rewrite get_quantity_single_value_spec by done.
    by rewrite bind_app, apply_updates_app, <- apply_updates_union.
  - rewrite !get_all_quantity_data_schema.
    + f_equal. unfold element_of, defined_by_properties. simpl.
      by rewrite bind_app, !app_nil_r.
    + unfold element_of, schema_element. simpl. by rewrite H12.
    + unfold element_of, schema_element. simpl. by rewrite H1, H2.
Qed.

Lemma quantity_sets_concatenate_witness :
  get_all_quantity_data
    (element_of
       [ IfcRelDefinesByProperties
           (IfcElementQuantity (Some "BaseQuantities")
              [ IfcQuantityArea (Some "NetArea") (PFloat (25 # 2)) ]);
         IfcRelDefinesByProperties
           (IfcElementQuantity (Some "BaseQuantities")
              [ IfcQuantityCount (Some "Openings") (PInt 2) ]) ])
  = get_all_quantity_data
      (element_of
         [ IfcRelDefinesByProperties
             (IfcElementQuantity (Some "BaseQuantities")
                [ IfcQuantityArea (Some "NetArea") (PFloat (25 # 2));
                  IfcQuantityCount (Some "Openings") (PInt 2) ]) ]).
Proof.
  apply (proj2 (quantity_sets_concatenate (Some "BaseQuantities")
                  [ IfcQuantityArea (Some "NetArea") (PFloat (25 # 2)) ]
                  [ IfcQuantityCount (Some "Openings") (PInt 2) ]
                  eq_refl eq_refl)).
Defined.

(** ** What the type extraction prints and how much it returns *)

Lemma get_type_single_value_lines (x : IfcTypeObject) (d : dict)
    (out : list string) :
  get_type_single_value x = Ok (d, out) ->
  (length out <= 1)%nat
  /\ forall line, line ∈ out ->
        exists g, GlobalId x = Some g /\ line = type_exception_line g.
Proof.
  intros Hx.
  destruct (get_type_single_value_Ok x d out Hx)
    as [[_ ->]|(ys & o & _ & _ & [->|(g & Hg & ->)])].
  - split; [simpl; lia|]. intros line Hl. by apply elem_of_nil in Hl.
  - split; [simpl; lia|]. intros line Hl. by apply elem_of_nil in Hl.
  - split; [simpl; lia|]. intros line Hl.
    apply list_elem_of_singleton in Hl. by exists g.
Qed.

Lemma printed_by_Ok (x : IfcTypeObject) (d : dict) (out : list string) :
  get_type_single_value x = Ok (d, out) -> printed_by x = out.
Proof. unfold printed_by. by intros ->. Qed.

Lemma type_loop_bounds (xs : list IfcTypeObject)
    (acc r : dict * list string) :
  type_loop acc xs = Ok r ->
  r.2 = acc.2 ++ (xs ≫= printed_by)
  /\ (size r.1 <= size acc.1 + length xs)%nat.
Proof.
  unfold type_loop. revert acc.
  induction xs as [|x xs IH]; intros acc; cbn [for_each].
  - intros. simplify_eq. rewrite app_nil_r. split; [done | lia].
  - destruct (get_type_single_value x) as [[m printed]|err] eqn:Hx.
    2:{ by rewrite (type_step_Raise _ _ _ Hx). }
    rewrite (type_step_Ok _ _ _ _ Hx), bind_Ok. intros Hloop.
    destruct (IH _ Hloop) as [Hout Hsize]. cbn [fst snd] in Hout, Hsize.
    rewrite bind_cons, (printed_by_Ok x m printed Hx).
    split; [by rewrite Hout, <- app_assoc|].
    etrans; [apply Hsize|].
    assert (Hm : (size (update m acc.1) <= S (size acc.1))%nat).
    { destruct (get_type_single_value_size x m printed Hx)
        as [->|(k & v & ->)]; unfold update.
      - rewrite (left_id_L ∅ (∪)). lia.
      - rewrite <- insert_union_singleton_l, map_size_insert.
        destruct (acc.1 !! k); unfold id; lia. }
    simpl. lia.
Qed.

Lemma printed_by_lines (x : IfcTypeObject) :
  (length (printed_by x) <= 1)%nat
  /\ forall line, line ∈ printed_by x ->
        exists g, GlobalId x = Some g /\ line = type_exception_line g.
Proof.
  unfold printed_by.
  destruct (get_type_single_value x) as [[d out]|err] eqn:Hx.
  - by apply (get_type_single_value_lines x d out).
  - split; [simpl; lia|]. intros line Hl. by apply elem_of_nil in Hl.
Qed.

(** X17.  [get_all_type_data] returns on every element of the schema.
    Whenever it returns, what it has printed is, in relationship order,
    what the type flattener prints for each type: at most one line per
    type, each the line of a type of the element that has a global
    identifier; its dictionary has at most one entry per type; and
    [get_all_instance_data], when it returns, has printed the same
    lines. *)
Theorem type_data_is_bounded (e : IfcObject) :
  (schema_element e = true ->
     exists t out, get_all_type_data e = Ok (t, out))
  /\ (forall (t : dict) (out : list string),
        get_all_type_data e = Ok (t, out) ->
        out = defined_by_type e ≫= printed_by
        /\ (size t <= length (defined_by_type e))%nat
        /\ (length out <= length (defined_by_type e))%nat
        /\ (forall line, line ∈ out ->
              exists x g, x ∈ defined_by_type e /\ GlobalId x = Some g
                          /\ line = type_exception_line g)
        /\ (forall m out',
              get_all_instance_data e = Ok (m, out') -> out' = out)).
Proof.
  split.
  - intros He. destruct (get_all_type_data_total e He) as [[t out] Ht].
    by exists t, out.
  - intros t out Ht. pose proof Ht as Hloop. unfold get_all_type_data in Hloop.
    rewrite get_related_type_definition_eq, bind_Ok in Hloop.
    destruct (type_loop_bounds _ _ _ Hloop) as [Hout Hsize].
    cbn [fst snd] in Hout, Hsize.
    rewrite app_nil_l in Hout. rewrite map_size_empty in Hsize.
    split; [exact Hout|]. split; [lia|]. split; [|split].
    + rewrite Hout. generalize (defined_by_type e) as xs.
      induction xs as [|x xs IH]; [done|].
      rewrite bind_cons, length_app. simpl.
      pose proof (proj1 (printed_by_lines x)). lia.
    + intros line Hline. rewrite Hout in Hline.
      apply list_elem_of_bind in Hline as (x & Hline & Hx).
      destruct (proj2 (printed_by_lines x) line Hline) as (g & Hg & ->).
      by exists x, g.
    + intros m out' Hi. rewrite get_all_instance_data_eq in Hi.
      destruct (get_all_pset_data e) as [p|]; [|done].
      destruct (get_all_quantity_data e) as [q|]; [|done].
      rewrite Ht in Hi. rewrite !bind_Ok in Hi. cbn [fst snd] in Hi.
      by simplify_eq.
Qed.

Lemma type_data_is_bounded_witness :
  exists (t : dict) (out : list string),
    get_all_type_data SampleWall = Ok (t, out)
    /\ (size t <= 1)%nat /\ out = [].
Proof.
  destruct (proj1 (type_data_is_bounded SampleWall) eq_refl)
    as (t & out & Ht).
  destruct (proj2 (type_data_is_bounded SampleWall) t out Ht)
    as (Hout & Hsize & _).
  exists t, out. split; [exact Ht|]. split; [exact Hsize|].
  rewrite Hout. reflexivity.
Defined.
